(** * The calculator: calculation records, the calculation factory and the
      history engine with undo and redo

    A shallow embedding of [app/exceptions.py], [app/calculation.py],
    [app/calculation/__init__.py], [app/history.py] and [app/calculator.py].

    Python values are modelled by the data they carry: [str] by [string],
    [Decimal] by sign, coefficient and exponent (with the infinities and the
    two kinds of NaN), [list] by [list] with [append] at the end, an
    exception by its class and the text [str(e)] yields.  A computation that
    may raise returns an [outcome].  Calls to [logging] are left out, except
    the warning of [Calculation.from_dict]. *)

From Stdlib Require Import ZArith NArith List String Ascii Bool Lia.
Import ListNotations.

Local Open Scope string_scope.

(** ** Exceptions and results *)

Module Py.

(** The exception classes the program raises or catches.  The first four
    are those of [app/exceptions.py]; the others are Python's own and the
    signals of the [decimal] module that the default context traps. *)
Inductive exc_class : Set :=
| Exception
| CalculatorError
| ValidationError
| OperationError
| ConfigurationError
| ArithmeticError
| ZeroDivisionError
| OverflowError
| ValueError
| TypeError
| KeyError
| AttributeError
| OSError
| DecimalException
| InvalidOperation
| DivisionByZero
| Overflow.

Definition exc_class_eqb (c d : exc_class) : bool :=
  match c, d with
  | Exception, Exception | CalculatorError, CalculatorError
  | ValidationError, ValidationError | OperationError, OperationError
  | ConfigurationError, ConfigurationError
  | ArithmeticError, ArithmeticError
  | ZeroDivisionError, ZeroDivisionError | OverflowError, OverflowError
  | ValueError, ValueError | TypeError, TypeError | KeyError, KeyError
  | AttributeError, AttributeError | OSError, OSError
  | DecimalException, DecimalException
  | InvalidOperation, InvalidOperation | DivisionByZero, DivisionByZero
  | Overflow, Overflow => true
  | _, _ => false
  end.

(** The direct base classes, as the class statements give them. *)
Definition bases (c : exc_class) : list exc_class :=
  match c with
  | Exception => []
  | CalculatorError => [Exception]
  | ValidationError | OperationError | ConfigurationError => [CalculatorError]
  | ArithmeticError => [Exception]
  | ZeroDivisionError | OverflowError => [ArithmeticError]
  | ValueError | TypeError | AttributeError | OSError => [Exception]
  | KeyError => [Exception]
  | DecimalException => [ArithmeticError]
  | InvalidOperation | Overflow => [DecimalException]
  | DivisionByZero => [DecimalException; ZeroDivisionError]
  end.

Fixpoint issubclass_fuel (fuel : nat) (c base : exc_class) : bool :=
  exc_class_eqb c base ||
  match fuel with
  | O => false
  | S fuel' => existsb (fun b => issubclass_fuel fuel' b base) (bases c)
  end.

(** [issubclass(c, base)]; the hierarchy is four levels deep. *)
Definition issubclass (c base : exc_class) : bool := issubclass_fuel 4 c base.

(** A raised exception: its class and [str(e)]. *)
Record exception : Set := mkExc { exc_type : exc_class; exc_str : string }.

(** [isinstance(e, (c1, ..., cn))], the test of an [except] clause. *)
Definition isinstance (e : exception) (classes : list exc_class) : bool :=
  existsb (issubclass (exc_type e)) classes.

Inductive outcome (A : Type) : Type :=
| Ok (a : A)
| Raised (e : exception).
Arguments Ok {A} a.
Arguments Raised {A} e.

Definition bind {A B : Type} (m : outcome A) (k : A -> outcome B) : outcome B :=
  match m with
  | Ok a => k a
  | Raised e => Raised e
  end.

Definition raise {A : Type} (c : exc_class) (msg : string) : outcome A :=
  Raised (mkExc c msg).

(** [try: m  except classes as e: handler e] *)
Definition try_except {A : Type} (m : outcome A) (classes : list exc_class)
    (handler : exception -> outcome A) : outcome A :=
  match m with
  | Ok a => Ok a
  | Raised e => if isinstance e classes then handler e else Raised e
  end.

Definition is_ok {A : Type} (m : outcome A) : bool :=
  match m with Ok _ => true | Raised _ => false end.

End Py.

Import Py.

Notation "x <- m ;; k" := (Py.bind m (fun x => k))
  (at level 61, m at next level, right associativity).

(** ** Text helpers *)

Module Text.

Definition chars (s : string) : list ascii := list_ascii_of_string s.
Definition str (l : list ascii) : string := string_of_list_ascii l.

Definition is_digit (c : ascii) : bool :=
  let n := N_of_ascii c in ((48 <=? n) && (n <=? 57))%N.

Definition digit_char (d : N) : ascii := ascii_of_N (48 + d).
Definition digit_val (c : ascii) : N := (N_of_ascii c - 48)%N.

(** The decimal digits of [n], most significant first, onto [acc]. *)
Fixpoint digits_fuel (fuel : nat) (n : N) (acc : list ascii) : list ascii :=
  let acc' := digit_char (n mod 10) :: acc in
  match fuel with
  | O => acc'
  | S fuel' => if (n <? 10)%N then acc' else digits_fuel fuel' (n / 10) acc'
  end.

(** [str(n)] for a natural number [n]. *)
Definition digits (n : N) : list ascii :=
  digits_fuel (N.to_nat (N.log2 n)) n [].

(** [int(s)] for a string of digits (0 for the empty string). *)
Definition horner (l : list ascii) : N :=
  fold_left (fun acc c => (10 * acc + digit_val c)%N) l 0%N.

(** The longest prefix satisfying [p], and the rest. *)
Fixpoint span (p : ascii -> bool) (l : list ascii) : list ascii * list ascii :=
  match l with
  | [] => ([], [])
  | c :: r => if p c then let (a, b) := span p r in (c :: a, b) else ([], l)
  end.

Definition is_nil {A : Type} (l : list A) : bool :=
  match l with [] => true | _ => false end.

Definition zeros (n : nat) : list ascii := repeat "0"%char n.

(** [n] right-justified in [width] columns, padded with zeros. *)
Definition pad (width : nat) (n : N) : list ascii :=
  let d := digits n in (zeros (width - List.length d) ++ d)%list.

(** ["%+d" % z] *)
Definition signed (z : Z) : list ascii :=
  ((if (z <? 0)%Z then "-" else "+")%char :: digits (Z.abs_N z)).

(** [c.lower()] on ASCII letters. *)
Definition lower_char (c : ascii) : ascii :=
  let n := N_of_ascii c in
  if ((65 <=? n) && (n <=? 90))%N then ascii_of_N (n + 32) else c.

(** [s.lower()] for a string of ASCII characters. *)
Definition lower (s : string) : string := str (map lower_char (chars s)).

(** [sep.join(l)] *)
Fixpoint join (sep : string) (l : list string) : string :=
  match l with
  | [] => ""
  | [s] => s
  | s :: r => s ++ sep ++ join sep r
  end.

Definition list_ascii_eqb (a b : list ascii) : bool :=
  String.eqb (str a) (str b).

End Text.

(** ** Python's [decimal.Decimal] under the default context

    [prec = 28], [rounding = ROUND_HALF_EVEN], [Emax = 999999],
    [Emin = -999999], [clamp = 0]; [InvalidOperation], [DivisionByZero] and
    [Overflow] are trapped, that is, raised as exceptions. *)

Module Decimal.

Inductive t : Set :=
| Finite (sign : bool) (coeff : N) (exp : Z)   (* (-1)^sign * coeff * 10^exp *)
| Infinity (sign : bool)
| NaN (sign : bool) (payload : N)              (* quiet NaN *)
| sNaN (sign : bool) (payload : N).            (* signaling NaN *)

Definition prec : Z := 28.
Definition Emax : Z := 999999.
Definition Emin : Z := -999999.
Definition Etiny : Z := Emin - prec + 1.
Definition Etop : Z := Emax - prec + 1.

Definition of_Z (z : Z) : t := Finite (z <? 0)%Z (Z.abs_N z) 0.
Definition zero : t := of_Z 0.

Definition invalid_operation {A : Type} : outcome A :=
  raise InvalidOperation "[<class 'decimal.InvalidOperation'>]".
Definition conversion_syntax {A : Type} : outcome A :=
  raise InvalidOperation "[<class 'decimal.ConversionSyntax'>]".
Definition division_undefined {A : Type} : outcome A :=
  raise InvalidOperation "[<class 'decimal.DivisionUndefined'>]".
Definition division_by_zero {A : Type} : outcome A :=
  raise DivisionByZero "[<class 'decimal.DivisionByZero'>]".
Definition overflow {A : Type} : outcome A :=
  raise Overflow "[<class 'decimal.Overflow'>]".

(** [len(self._int)] *)
Definition ndigits (c : N) : Z := Z.of_nat (List.length (Text.digits c)).

Definition is_nan (d : t) : bool :=
  match d with NaN _ _ | sNaN _ _ => true | _ => false end.
Definition is_qnan (d : t) : bool :=
  match d with NaN _ _ => true | _ => false end.
Definition is_snan (d : t) : bool :=
  match d with sNaN _ _ => true | _ => false end.

(** [not self]: a finite number whose coefficient is zero. *)
Definition is_zero (d : t) : bool :=
  match d with Finite _ c _ => (c =? 0)%N | _ => false end.

Definition sign_of (d : t) : bool :=
  match d with Finite s _ _ | Infinity s | NaN s _ | sNaN s _ => s end.

(** [(-1)**sign] as a comparison outcome. *)
Definition sign_cmp (s : bool) : comparison := if s then Lt else Gt.

(** [_isinfinity]: -1, 0 or 1. *)
Definition isinfinity (d : t) : Z :=
  match d with Infinity s => if s then (-1)%Z else 1%Z | _ => 0%Z end.

(** [_cmp], for operands that are not NaN. *)
Definition cmp (a b : t) : comparison :=
  match a, b with
  | Finite sa ca ea, Finite sb cb eb =>
      if (ca =? 0)%N then
        if (cb =? 0)%N then Eq else CompOpp (sign_cmp sb)
      else if (cb =? 0)%N then sign_cmp sa
      else if andb sa (negb sb) then Lt
      else if andb (negb sa) sb then Gt
      else
        let adj_a := (ea + ndigits ca - 1)%Z in
        let adj_b := (eb + ndigits cb - 1)%Z in
        match (adj_a ?= adj_b)%Z with
        | Eq =>
            let pa := (ca * 10 ^ Z.to_N (ea - eb))%N in
            let pb := (cb * 10 ^ Z.to_N (eb - ea))%N in
            match (pa ?= pb)%N with
            | Eq => Eq
            | Lt => CompOpp (sign_cmp sa)
            | Gt => sign_cmp sa
            end
        | Gt => sign_cmp sa
        | Lt => CompOpp (sign_cmp sa)
        end
  | _, _ => (isinfinity a ?= isinfinity b)%Z
  end.

(** The payload of a NaN result is cut to the context's precision. *)
Definition fix_nan (s : bool) (p : N) : t := NaN s (p mod 10 ^ 28)%N.

(** [_check_nans]: [Some r] when an operand is a NaN. *)
Definition check_nans (a b : t) : option (outcome t) :=
  match a, b with
  | sNaN _ _, _ => Some invalid_operation
  | _, sNaN _ _ => Some invalid_operation
  | NaN s p, _ => Some (Ok (fix_nan s p))
  | _, NaN s p => Some (Ok (fix_nan s p))
  | _, _ => None
  end.

(** [a == b]: false with a quiet NaN, raises with a signaling one. *)
Definition eq (a b : t) : outcome bool :=
  match check_nans a b with
  | Some (Raised e) => Raised e
  | Some (Ok _) => Ok false
  | None => Ok match cmp a b with Eq => true | _ => false end
  end.

(** [a != b], the negation of [a == b]. *)
Definition ne (a b : t) : outcome bool := r <- eq a b ;; Ok (negb r).

(** The ordering operators raise with any NaN. *)
Definition ordered (test : comparison -> bool) (a b : t) : outcome bool :=
  if is_nan a || is_nan b then invalid_operation else Ok (test (cmp a b)).

Definition lt : t -> t -> outcome bool :=
  ordered (fun c => match c with Lt => true | _ => false end).
Definition ge : t -> t -> outcome bool :=
  ordered (fun c => match c with Lt => false | _ => true end).

(** [c / 10^k] rounded half to even, for [k > 0]. *)
Definition round_half_even (c : N) (k : Z) : N :=
  let p := (10 ^ Z.to_N k)%N in
  let q := (c / p)%N in
  match (2 * (c mod p) ?= p)%N with
  | Lt => q
  | Gt => (q + 1)%N
  | Eq => if N.even q then q else (q + 1)%N
  end.

(** [_fix]: round a finite value to the context. *)
Definition _fix (s : bool) (c : N) (e : Z) : outcome t :=
  if (c =? 0)%N then Ok (Finite s 0 (Z.min (Z.max e Etiny) Emax))
  else
    let exp_min0 := (ndigits c + e - prec)%Z in
    if (exp_min0 >? Etop)%Z then overflow
    else
      let exp_min := Z.max exp_min0 Etiny in
      if (e <? exp_min)%Z then
        let q := round_half_even c (exp_min - e) in
        if (ndigits q >? prec)%Z then
          if (exp_min + 1 >? Etop)%Z then overflow
          else Ok (Finite s (q / 10) (exp_min + 1))
        else Ok (Finite s q exp_min)
      else Ok (Finite s c e).

Definition signed_coeff (s : bool) (c : N) : Z :=
  if s then (- Z.of_N c)%Z else Z.of_N c.

(** [a + b] *)
Definition add (a b : t) : outcome t :=
  match check_nans a b with
  | Some r => r
  | None =>
      match a, b with
      | Infinity sa, Infinity sb =>
          if Bool.eqb sa sb then Ok a else invalid_operation
      | Infinity _, _ => Ok a
      | _, Infinity _ => Ok b
      | Finite sa ca ea, Finite sb cb eb =>
          let e := Z.min ea eb in
          if ((ca =? 0) && (cb =? 0))%N then _fix (sa && sb) 0 e
          else
            let za := (signed_coeff sa ca * 10 ^ (ea - e))%Z in
            let zb := (signed_coeff sb cb * 10 ^ (eb - e))%Z in
            let z := (za + zb)%Z in
            _fix (z <? 0)%Z (Z.abs_N z) e
      | _, _ => invalid_operation
      end
  end.

(** [copy_negate] *)
Definition negate (a : t) : t :=
  match a with
  | Finite s c e => Finite (negb s) c e
  | Infinity s => Infinity (negb s)
  | NaN s p => NaN (negb s) p
  | sNaN s p => sNaN (negb s) p
  end.

(** [a - b] *)
Definition sub (a b : t) : outcome t :=
  match check_nans a b with
  | Some r => r
  | None => add a (negate b)
  end.

(** [a * b] *)
Definition mul (a b : t) : outcome t :=
  let s := xorb (sign_of a) (sign_of b) in
  match check_nans a b with
  | Some r => r
  | None =>
      match a, b with
      | Finite _ ca ea, Finite _ cb eb => _fix s (ca * cb) (ea + eb)
      | _, _ =>
          if is_zero a || is_zero b then invalid_operation
          else Ok (Infinity s)
      end
  end.

(** While the quotient is exact, bring its exponent up to the ideal one. *)
Fixpoint strip_zeros (fuel : nat) (coeff : N) (e ideal : Z) : N * Z :=
  match fuel with
  | O => (coeff, e)
  | S fuel' =>
      if ((e <? ideal)%Z && (coeff mod 10 =? 0)%N)%bool
      then strip_zeros fuel' (coeff / 10) (e + 1) ideal
      else (coeff, e)
  end.

(** [a / b] *)
Definition div (a b : t) : outcome t :=
  let s := xorb (sign_of a) (sign_of b) in
  match check_nans a b with
  | Some r => r
  | None =>
      match a, b with
      | Infinity _, Infinity _ => invalid_operation
      | Infinity _, _ => Ok (Infinity s)
      | _, Infinity _ => Ok (Finite s 0 Etiny)
      | Finite _ ca ea, Finite _ cb eb =>
          if (cb =? 0)%N then
            if (ca =? 0)%N then division_undefined else division_by_zero
          else if (ca =? 0)%N then _fix s 0 (ea - eb)
          else
            let shift := (ndigits cb - ndigits ca + prec + 1)%Z in
            let e := (ea - eb - shift)%Z in
            let num := (ca * 10 ^ Z.to_N shift)%N in
            let den := (cb * 10 ^ Z.to_N (- shift))%N in
            let q := (num / den)%N in
            let r := (num mod den)%N in
            if (r =? 0)%N then
              let '(q', e') := strip_zeros (Z.to_nat shift) q e (ea - eb) in
              _fix s q' e'
            else _fix s (if (q mod 5 =? 0)%N then q + 1 else q)%N e
      | _, _ => invalid_operation
      end
  end.

(** *** Text: [str(d)] and [Decimal(s)] *)

Definition sign_text (s : bool) : list ascii :=
  if s then ["-"%char] else [].

Definition payload_text (p : N) : list ascii :=
  if (p =? 0)%N then [] else Text.digits p.

(** The digits of a finite value in scientific notation, capital [E]. *)
Definition finite_chars (c : N) (e : Z) : list ascii :=
  let ds := Text.digits c in
  let len := Z.of_nat (List.length ds) in
  let leftdigits := (e + len)%Z in
  let dotplace :=
    if ((e <=? 0)%Z && (leftdigits >? -6)%Z)%bool then leftdigits else 1%Z in
  let body :=
    if (dotplace <=? 0)%Z then
      ("0"%char :: "."%char :: Text.zeros (Z.to_nat (- dotplace)) ++ ds)%list
    else if (dotplace >=? len)%Z then
      (ds ++ Text.zeros (Z.to_nat (dotplace - len)))%list
    else
      (firstn (Z.to_nat dotplace) ds ++ "."%char
         :: skipn (Z.to_nat dotplace) ds)%list in
  let exponent :=
    if (leftdigits =? dotplace)%Z then []
    else "E"%char :: Text.signed (leftdigits - dotplace) in
  (body ++ exponent)%list.

(** [__str__] *)
Definition to_chars (d : t) : list ascii :=
  match d with
  | Infinity s => (sign_text s ++ Text.chars "Infinity")%list
  | NaN s p => (sign_text s ++ Text.chars "NaN" ++ payload_text p)%list
  | sNaN s p => (sign_text s ++ Text.chars "sNaN" ++ payload_text p)%list
  | Finite s c e => (sign_text s ++ finite_chars c e)%list
  end.

Definition to_str (d : t) : string := Text.str (to_chars d).

Definition is_E (c : ascii) : bool :=
  Ascii.eqb c "E"%char || Ascii.eqb c "e"%char.

(** An optional sign, and the rest. *)
Definition split_sign (l : list ascii) : bool * list ascii :=
  match l with
  | c :: r =>
      if Ascii.eqb c "-"%char then (true, r)
      else if Ascii.eqb c "+"%char then (false, r)
      else (false, l)
  | [] => (false, [])
  end.

(** An optional sign and at least one digit, nothing else. *)
Definition parse_exponent (l : list ascii) : option Z :=
  let '(neg, body) := split_sign l in
  let '(ds, rest) := Text.span Text.is_digit body in
  if Text.is_nil ds || negb (Text.is_nil rest) then None
  else Some (if neg then (- Z.of_N (Text.horner ds))%Z else Z.of_N (Text.horner ds)).

(** Digits, an optional fraction, an optional exponent. *)
Definition parse_number (l : list ascii) : option (N * Z) :=
  let '(ip, r1) := Text.span Text.is_digit l in
  let '(fp, r2) :=
    match r1 with
    | "."%char :: r => Text.span Text.is_digit r
    | _ => ([], r1)
    end in
  if Text.is_nil ip && Text.is_nil fp then None
  else
    let coeff := Text.horner (ip ++ fp) in
    let fexp := (- Z.of_nat (List.length fp))%Z in
    match r2 with
    | [] => Some (coeff, fexp)
    | c :: r3 =>
        if is_E c then
          match parse_exponent r3 with
          | Some x => Some (coeff, (x + fexp)%Z)
          | None => None
          end
        else None
    end.

(** [Inf], [Infinity], [NaN] and [sNaN] with an optional payload, in any
    letter case. *)
Definition parse_special (s : bool) (l : list ascii) : option t :=
  let low := map Text.lower_char l in
  if Text.list_ascii_eqb low (Text.chars "inf")
     || Text.list_ascii_eqb low (Text.chars "infinity")
  then Some (Infinity s)
  else
    let '(signal, r) :=
      match low with
      | "s"%char :: r => (true, r)
      | _ => (false, low)
      end in
    match r with
    | "n"%char :: "a"%char :: "n"%char :: diag =>
        let '(ds, rest) := Text.span Text.is_digit diag in
        if Text.is_nil rest then
          Some (if signal then sNaN s (Text.horner ds) else NaN s (Text.horner ds))
        else None
    | _ => None
    end.

Definition is_space (c : ascii) : bool :=
  let n := N_of_ascii c in ((n =? 32) || ((9 <=? n) && (n <=? 13)))%N.

Fixpoint lstrip (l : list ascii) : list ascii :=
  match l with
  | c :: r => if is_space c then lstrip r else l
  | [] => []
  end.

(** [value.strip().replace("_", "")] *)
Definition clean (l : list ascii) : list ascii :=
  filter (fun c => negb (Ascii.eqb c "_"%char)) (rev (lstrip (rev (lstrip l)))).

Definition parse_chars (l : list ascii) : option t :=
  let '(s, body) := split_sign (clean l) in
  match parse_number body with
  | Some (c, e) => Some (Finite s c e)
  | None => parse_special s body
  end.

(** [Decimal(s)] for a string [s] of ASCII characters.  Python also reads
    the decimal digits of other scripts; these are outside the model. *)
Definition of_str (s : string) : outcome t :=
  match parse_chars (Text.chars s) with
  | Some d => Ok d
  | None => conversion_syntax
  end.

End Decimal.

(** ** Naive [datetime.datetime] values and their ISO 8601 text *)

Module Datetime.

Record t : Set := mk {
  year : N; month : N; day : N;
  hour : N; minute : N; second : N; microsecond : N
}.

Definition is_leap (y : N) : bool :=
  ((y mod 4 =? 0) && (negb (y mod 100 =? 0) || (y mod 400 =? 0)))%N.

Definition days_in_month (y m : N) : N :=
  if (m =? 2)%N then (if is_leap y then 29%N else 28%N)
  else if ((m =? 4) || (m =? 6) || (m =? 9) || (m =? 11))%N then 30%N
  else 31%N.

(** The ranges the [datetime] constructor enforces. *)
Definition valid (d : t) : bool :=
  ((1 <=? year d) && (year d <=? 9999) &&
   (1 <=? month d) && (month d <=? 12) &&
   (1 <=? day d) && (day d <=? days_in_month (year d) (month d)) &&
   (hour d <? 24) && (minute d <? 60) && (second d <? 60) &&
   (microsecond d <? 1000000))%N.

(** [isoformat()]: [YYYY-MM-DDTHH:MM:SS], then [.ffffff] when the
    microsecond is not zero. *)
Definition isoformat_chars (d : t) : list ascii :=
  (Text.pad 4 (year d) ++ "-"%char :: Text.pad 2 (month d) ++ "-"%char ::
   Text.pad 2 (day d) ++ "T"%char :: Text.pad 2 (hour d) ++ ":"%char ::
   Text.pad 2 (minute d) ++ ":"%char :: Text.pad 2 (second d) ++
   (if (microsecond d =? 0)%N then []
    else "."%char :: Text.pad 6 (microsecond d)))%list.

Definition isoformat (d : t) : string := Text.str (isoformat_chars d).

(** Exactly [w] digits, and the rest. *)
Fixpoint take_digits (w : nat) (l : list ascii) : option (list ascii * list ascii) :=
  match w with
  | O => Some ([], l)
  | S w' =>
      match l with
      | c :: r =>
          if Text.is_digit c then
            match take_digits w' r with
            | Some (ds, rest) => Some (c :: ds, rest)
            | None => None
            end
          else None
      | [] => None
      end
  end.

Definition take_num (w : nat) (l : list ascii) : option (N * list ascii) :=
  match take_digits w l with
  | Some (ds, rest) => Some (Text.horner ds, rest)
  | None => None
  end.

(** [HH[:MM[:SS[.fff[fff]]]]] *)
Definition parse_time (l : list ascii) : option (N * N * N * N) :=
  match take_num 2 l with
  | Some (h, []) => Some (h, 0, 0, 0)%N
  | Some (h, ":"%char :: l1) =>
      match take_num 2 l1 with
      | Some (mi, []) => Some (h, mi, 0, 0)%N
      | Some (mi, ":"%char :: l2) =>
          match take_num 2 l2 with
          | Some (s, []) => Some (h, mi, s, 0%N)
          | Some (s, "."%char :: l3) =>
              match take_num 6 l3 with
              | Some (us, []) => Some (h, mi, s, us)
              | Some _ => None
              | None =>
                  match take_num 3 l3 with
                  | Some (ms, []) => Some (h, mi, s, ms * 1000)%N
                  | _ => None
                  end
              end
          | _ => None
          end
      | _ => None
      end
  | _ => None
  end.

(** [YYYY-MM-DD], then any one separator and a time. *)
Definition parse_chars (l : list ascii) : option t :=
  match take_num 4 l with
  | Some (y, "-"%char :: l1) =>
      match take_num 2 l1 with
      | Some (m, "-"%char :: l2) =>
          match take_num 2 l2 with
          | Some (d, []) => Some (mk y m d 0 0 0 0)
          | Some (d, _ :: l3) =>
              match parse_time l3 with
              | Some (h, mi, s, us) => Some (mk y m d h mi s us)
              | None => None
              end
          | None => None
          end
      | _ => None
      end
  | _ => None
  end.

(** [datetime.fromisoformat(s)] for text without a UTC offset.  A field out
    of range raises [ValueError] as well; Python words that message by
    field, here the text is the same for every [ValueError]. *)
Definition fromisoformat (s : string) : outcome t :=
  match parse_chars (Text.chars s) with
  | Some d =>
      if valid d then Ok d
      else raise ValueError ("Invalid isoformat string: '" ++ s ++ "'")
  | None => raise ValueError ("Invalid isoformat string: '" ++ s ++ "'")
  end.

End Datetime.

(** ** What the program calls and [src/] does not define *)

(** The value of [pow(f, g)] on floats: a float, or a complex number when a
    negative base meets a fractional exponent. *)
Inductive pow_value (F : Type) : Type :=
| PowFloat (f : F)
| PowComplex.
Arguments PowFloat {F} f.
Arguments PowComplex {F}.

(** Modelled from the spec: the configuration ([app/calculator_config.py] is
    missing).  Section 6 names the fields the engine reads:
    [max_history_size], an integer, and [auto_save], a boolean. *)
Record CalculatorConfig : Set := mkConfig {
  max_history_size : Z;
  auto_save : bool
}.

(** A raw operand, [Union[str, Number]]. *)
Inductive raw : Set :=
| RawStr (s : string)
| RawInt (z : Z)
| RawDecimal (d : Decimal.t).

(** Binary floating point ([float], [pow], [/]) and the input validator
    ([app/input_validators.py] is missing) are taken as given: any
    implementation may stand here. *)
Record Runtime : Type := mkRuntime {
  float : Type;
  (** [float(d)] *)
  float_of_decimal : Decimal.t -> outcome float;
  (** [1 / f] *)
  float_inverse : float -> outcome float;
  (** [pow(f, g)] *)
  float_pow : float -> float -> outcome (pow_value float);
  (** [Decimal(f)], exact *)
  decimal_of_float : float -> Decimal.t;
  (** [InputValidator.validate_number(value, config)] *)
  validate_number : raw -> CalculatorConfig -> outcome Decimal.t
}.

(** A dictionary with string keys and string values, in insertion order:
    the dictionaries that [to_dict] builds.  [from_dict] is declared on
    [Dict[str, Any]]; a value that is not a string (for [Decimal(None)]
    Python raises [TypeError]) is outside the model. *)
Definition dict : Set := list (string * string).

Fixpoint get {V : Type} (d : list (string * V)) (key : string) : option V :=
  match d with
  | [] => None
  | (k, v) :: r => if String.eqb k key then Some v else get r key
  end.

(** [d[key]], raising [KeyError]; [str] of a [KeyError] is the key's repr. *)
Definition getitem (d : dict) (key : string) : outcome string :=
  match get d key with
  | Some v => Ok v
  | None => raise KeyError ("'" ++ key ++ "'")
  end.

(** ** [app/calculation.py] *)

Module Calculation.

Record t : Set := mk {
  operation : string;
  operand1 : Decimal.t;
  operand2 : Decimal.t;
  result : Decimal.t;
  timestamp : Datetime.t
}.

Definition _raise_div_zero {A : Type} : outcome A :=
  raise OperationError "Division by zero is not allowed".

Definition _raise_neg_power {A : Type} : outcome A :=
  raise OperationError "Negative exponents are not supported".

Definition _raise_invalid_root {A : Type} (x y : Decimal.t) : outcome A :=
  y_is_zero <- Decimal.eq y Decimal.zero ;;
  if y_is_zero : bool then raise OperationError "Zero root is undefined"
  else
    x_is_negative <- Decimal.lt x Decimal.zero ;;
    if x_is_negative : bool
    then raise OperationError "Cannot calculate root of negative number"
    else raise OperationError "Invalid root operation".

Section WithRuntime.
Variable rt : Runtime.

(** [Decimal(v)] for the value of a float [pow]. *)
Definition Decimal_of_pow (v : pow_value (float rt)) : outcome Decimal.t :=
  match v with
  | PowFloat f => Ok (decimal_of_float rt f)
  | PowComplex =>
      raise TypeError "conversion from complex to Decimal is not supported"
  end.

(** The dictionary of [calculate], from operation name to function. *)
Definition operations : list (string * (Decimal.t -> Decimal.t -> outcome Decimal.t)) :=
  [ ("Addition", fun x y => Decimal.add x y);
    ("Subtraction", fun x y => Decimal.sub x y);
    ("Multiplication", fun x y => Decimal.mul x y);
    ("Division", fun x y =>
       nonzero <- Decimal.ne y Decimal.zero ;;
       if nonzero : bool then Decimal.div x y else _raise_div_zero);
    ("Power", fun x y =>
       nonneg <- Decimal.ge y Decimal.zero ;;
       if nonneg : bool then
         fx <- float_of_decimal rt x ;;
         fy <- float_of_decimal rt y ;;
         v <- float_pow rt fx fy ;;
         Decimal_of_pow v
       else _raise_neg_power);
    ("Root", fun x y =>
       x_nonneg <- Decimal.ge x Decimal.zero ;;
       defined <- (if x_nonneg : bool then Decimal.ne y Decimal.zero
                   else Ok false) ;;
       if defined : bool then
         fx <- float_of_decimal rt x ;;
         fy <- float_of_decimal rt y ;;
         inv <- float_inverse rt fy ;;
         v <- float_pow rt fx inv ;;
         Decimal_of_pow v
       else _raise_invalid_root x y) ].

Definition calculate (operation : string) (operand1 operand2 : Decimal.t)
    : outcome Decimal.t :=
  match get operations operation with
  | None => raise OperationError ("Unknown operation: " ++ operation)
  | Some op =>
      try_except (op operand1 operand2)
        [InvalidOperation; ValueError; ArithmeticError]
        (fun e => raise OperationError ("Calculation failed: " ++ exc_str e))
  end.

(** The constructor: the dataclass [__init__] followed by
    [__post_init__].  The operands are [Decimal] by their type here, so
    the [isinstance] test of [__post_init__] passes.  [timestamp] is the
    value given, or the reading of the clock. *)
Definition __post_init__ (operation : string) (operand1 operand2 : Decimal.t)
    (timestamp : Datetime.t) : outcome t :=
  r <- calculate operation operand1 operand2 ;;
  Ok (mk operation operand1 operand2 r timestamp).

(** A record of the log: level and message. *)
Definition log_record : Set := (string * string)%type.

(** [from_dict(data)]: the record, and what it logged.  [now] is the
    clock's reading when the record is built. *)
Definition from_dict (now : Datetime.t) (data : dict)
    : outcome (t * list log_record) :=
  try_except
    (operation <- getitem data "operation" ;;
     text1 <- getitem data "operand1" ;;
     operand1 <- Decimal.of_str text1 ;;
     text2 <- getitem data "operand2" ;;
     operand2 <- Decimal.of_str text2 ;;
     calc <- __post_init__ operation operand1 operand2 now ;;
     stamp_text <- getitem data "timestamp" ;;
     stamp <- Datetime.fromisoformat stamp_text ;;
     let calc :=
       mk calc.(Calculation.operation) calc.(Calculation.operand1)
          calc.(Calculation.operand2) calc.(result) stamp in
     result_text <- getitem data "result" ;;
     saved_result <- Decimal.of_str result_text ;;
     differs <- Decimal.ne calc.(result) saved_result ;;
     Ok (calc,
         if differs : bool then
           [("WARNING",
             "Loaded calculation result " ++ Decimal.to_str saved_result ++
             " differs from computed result " ++ Decimal.to_str calc.(result))]
         else []))
    [KeyError; InvalidOperation; ValueError]
    (fun e => raise OperationError ("Invalid calculation data: " ++ exc_str e)).

End WithRuntime.

Definition to_dict (self : t) : dict :=
  [ ("operation", self.(operation));
    ("operand1", Decimal.to_str self.(operand1));
    ("operand2", Decimal.to_str self.(operand2));
    ("result", Decimal.to_str self.(result));
    ("timestamp", Datetime.isoformat self.(timestamp)) ].

Definition __str__ (self : t) : string :=
  self.(operation) ++ "(" ++ Decimal.to_str self.(operand1) ++ ", " ++
  Decimal.to_str self.(operand2) ++ ") = " ++ Decimal.to_str self.(result).

(** [self == other] for two records: the conjunction stops at the first
    false, and a signaling NaN makes it raise. *)
Definition __eq__ (self other : t) : outcome bool :=
  if String.eqb self.(operation) other.(operation) then
    same1 <- Decimal.eq self.(operand1) other.(operand1) ;;
    if same1 : bool then
      same2 <- Decimal.eq self.(operand2) other.(operand2) ;;
      if same2 : bool then Decimal.eq self.(result) other.(result)
      else Ok false
    else Ok false
  else Ok false.

End Calculation.

(** ** [app/operation/__init__.py]: the arithmetic of the first calculator *)

(** Python's [float] with the operators [Operation] uses, taken as given.
    On floats [+], [-] and [*] do not raise, and [/] does not raise when the
    divisor is not zero; [fdiv] stands for [/] with such a divisor. *)
Record FloatArith : Type := mkFloatArith {
  fnum : Type;
  fadd : fnum -> fnum -> fnum;
  fsub : fnum -> fnum -> fnum;
  fmul : fnum -> fnum -> fnum;
  fdiv : fnum -> fnum -> fnum;
  (** [b == 0] *)
  fis_zero : fnum -> bool
}.

(** The class [Operation] of [app/operation/__init__.py]. *)
Module BasicOperation.

Section WithFloats.
Variable fl : FloatArith.

Definition addition (a b : fnum fl) : fnum fl := fadd fl a b.
Definition subtraction (a b : fnum fl) : fnum fl := fsub fl a b.
Definition multiplication (a b : fnum fl) : fnum fl := fmul fl a b.

Definition division (a b : fnum fl) : outcome (fnum fl) :=
  if fis_zero fl b then raise ValueError "Division by zero is not allowed."
  else Ok (fdiv fl a b).

End WithFloats.

End BasicOperation.

(** ** [app/calculation/__init__.py]: the calculation factory *)

Module CalculationFactory.

Section WithClasses.
(** The registered classes and the numbers they are built from. *)
Variables (Class Number : Type).

(** [CalculationFactory._calculations]: a dictionary in insertion
    order, passed explicitly. *)
Definition registry : Type := list (string * Class).

(** An instance [calculation_class(a, b)]. *)
Record instance : Type := mkInstance {
  class_of : Class;
  a : Number;
  b : Number
}.

Definition keys (r : registry) : list string := map fst r.

(** [register_calculation(calculation_type)(subclass)] *)
Definition register_calculation (r : registry) (calculation_type : string)
    (subclass : Class) : outcome registry :=
  let calculation_type_lower := Text.lower calculation_type in
  match get r calculation_type_lower with
  | Some _ =>
      raise ValueError
        ("Calculation type '" ++ calculation_type ++ "' is already registered.")
  | None => Ok (r ++ [(calculation_type_lower, subclass)])%list
  end.

Definition create_calculation (r : registry) (calculation_type : string)
    (a b : Number) : outcome instance :=
  let calculation_type_lower := Text.lower calculation_type in
  match get r calculation_type_lower with
  | None =>
      let available_types := Text.join ", " (keys r) in
      raise ValueError
        ("Unsupported calculation type: '" ++ calculation_type ++
         "'. Available types: " ++ available_types)
  | Some calculation_class => Ok (mkInstance calculation_class a b)
  end.

End WithClasses.

(** The classes the module registers when it is imported. *)
Inductive builtin_class : Set :=
| AddCalculation
| SubtractCalculation
| MultiplyCalculation
| DivideCalculation.

Definition registered_at_import : registry builtin_class :=
  [ ("add", AddCalculation); ("subtract", SubtractCalculation);
    ("multiply", MultiplyCalculation); ("divide", DivideCalculation) ].

(** [execute()] of an instance of one of these classes. *)
Definition execute (fl : FloatArith) (self : instance builtin_class (fnum fl))
    : outcome (fnum fl) :=
  match class_of _ _ self with
  | AddCalculation =>
      Ok (BasicOperation.addition fl (a _ _ self) (b _ _ self))
  | SubtractCalculation =>
      Ok (BasicOperation.subtraction fl (a _ _ self) (b _ _ self))
  | MultiplyCalculation =>
      Ok (BasicOperation.multiplication fl (a _ _ self) (b _ _ self))
  | DivideCalculation =>
      if fis_zero fl (b _ _ self)
      then raise ZeroDivisionError "Cannot divide by zero."
      else BasicOperation.division fl (a _ _ self) (b _ _ self)
  end.

End CalculationFactory.

(** ** [app/history.py] and [app/calculator.py]: the engine *)

(** Modelled from the spec: the operation strategies ([app/operations.py] is
    missing).  An operation has a name, [str(operation)], and [execute],
    which may raise. *)
Record Operation : Type := mkOperation {
  operation_name : string;
  execute : Decimal.t -> Decimal.t -> outcome Decimal.t
}.

(** Modelled from the spec: the memento ([app/calculator_memento.py] is
    missing).  Section 4.3: a passive value holding a copy of the history. *)
Record CalculatorMemento : Set := mkMemento {
  memento_history : list Calculation.t
}.

(** The observers of [app/history.py].  An [AutoSaveObserver] refers to the
    calculator it is attached to. *)
Inductive HistoryObserver : Set :=
| LoggingObserver
| AutoSaveObserver.

(** The history file and the clock.  [history_file] holds the rows of the
    CSV file, each a dictionary from column name to cell text, or [None]
    when the file does not exist; [Some []] is a file with the header line
    and no rows, as [save_history] writes it for an empty history.  When
    [unreadable] is set the file is there and [pd.read_csv] raises with that
    text on it: for a file of zero bytes pandas raises [EmptyDataError],
    "No columns to parse from file".  When [io_error] is set every file
    operation raises [OSError] with that text.

    The cells are the texts that [Decimal] and [fromisoformat] are given.
    The types pandas infers for the columns of a file (a float for a column
    of numbers) are not part of the model. *)
Record World : Set := mkFiles {
  history_file : option (list dict);
  unreadable : option string;
  io_error : option string;
  clock : Datetime.t
}.

(** A world whose history file, when there is one, can be read. *)
Definition mkWorld (file : option (list dict)) (error : option string)
    (now : Datetime.t) : World :=
  mkFiles file None error now.

Module Calculator.

Record t : Type := mk {
  config : CalculatorConfig;
  history : list Calculation.t;
  operation_strategy : option Operation;
  observers : list HistoryObserver;
  undo_stack : list CalculatorMemento;
  redo_stack : list CalculatorMemento
}.

Definition set_history (self : t) (h : list Calculation.t) : t :=
  mk self.(config) h self.(operation_strategy) self.(observers)
     self.(undo_stack) self.(redo_stack).
Definition set_undo_stack (self : t) (u : list CalculatorMemento) : t :=
  mk self.(config) self.(history) self.(operation_strategy) self.(observers)
     u self.(redo_stack).
Definition set_redo_stack (self : t) (r : list CalculatorMemento) : t :=
  mk self.(config) self.(history) self.(operation_strategy) self.(observers)
     self.(undo_stack) r.

(** [l.pop()]: the last element and the list without it. *)
Fixpoint pop {A : Type} (l : list A) : option (A * list A) :=
  match l with
  | [] => None
  | x :: r =>
      match pop r with
      | None => Some (x, [])
      | Some (y, r') => Some (y, x :: r')
      end
  end.

(** [l.pop(0)] on a list that is not empty. *)
Definition pop0 {A : Type} (l : list A) : list A := tl l.

Definition add_observer (self : t) (observer : HistoryObserver) : t :=
  mk self.(config) self.(history) self.(operation_strategy)
     (self.(observers) ++ [observer]) self.(undo_stack) self.(redo_stack).

Definition set_operation (self : t) (operation : Operation) : t :=
  mk self.(config) self.(history) (Some operation) self.(observers)
     self.(undo_stack) self.(redo_stack).

(** One row of the history file. *)
Definition row_of (calc : Calculation.t) : dict :=
  [ ("operation", calc.(Calculation.operation));
    ("operand1", Decimal.to_str calc.(Calculation.operand1));
    ("operand2", Decimal.to_str calc.(Calculation.operand2));
    ("result", Decimal.to_str calc.(Calculation.result));
    ("timestamp", Datetime.isoformat calc.(Calculation.timestamp)) ].

(** [save_history()]: writes the rows, or only the header when the
    history is empty. *)
Definition save_history (self : t) (w : World) : outcome unit * World :=
  match w.(io_error) with
  | Some msg => (raise OperationError ("Failed to save history: " ++ msg), w)
  | None =>
      (Ok tt, mkWorld (Some (map row_of self.(history))) None w.(clock))
  end.

(** [observer.update(calculation)] *)
Definition update (observer : HistoryObserver) (self : t) (w : World)
    (calculation : Calculation.t) : outcome unit * World :=
  match observer with
  | LoggingObserver => (Ok tt, w)
  | AutoSaveObserver =>
      if self.(config).(auto_save) then save_history self w else (Ok tt, w)
  end.

(** [for observer in observers: observer.update(calculation)] *)
Fixpoint notify (l : list HistoryObserver) (self : t) (w : World)
    (calculation : Calculation.t) : outcome unit * World :=
  match l with
  | [] => (Ok tt, w)
  | observer :: rest =>
      match update observer self w calculation with
      | (Ok _, w') => notify rest self w' calculation
      | (Raised e, w') => (Raised e, w')
      end
  end.

Definition notify_observers (self : t) (w : World)
    (calculation : Calculation.t) : outcome unit * World :=
  notify self.(observers) self w calculation.

(** The statements of [perform_operation] from the history snapshot to
    the eviction. *)
Definition commit (self : t) (calculation : Calculation.t) : t :=
  let self1 :=
    set_undo_stack self
      (self.(undo_stack) ++ [mkMemento self.(history)]) in
  let self2 := set_redo_stack self1 [] in
  let self3 := set_history self2 (self2.(history) ++ [calculation]) in
  if (Z.of_nat (List.length self3.(history)) >? self3.(config).(max_history_size))%Z
  then set_history self3 (pop0 self3.(history))
  else self3.

(** The two [except] clauses of [perform_operation]. *)
Definition normalize {A : Type} (m : outcome A) : outcome A :=
  match m with
  | Ok v => Ok v
  | Raised e =>
      if isinstance e [ValidationError] then Raised e
      else if isinstance e [Exception] then
        raise OperationError ("Operation failed: " ++ exc_str e)
      else Raised e
  end.

Section WithRuntime.
Variable rt : Runtime.

(** The statements of [perform_operation] before the history is
    touched: validation, execution, construction of the record. *)
Definition prepare (self : t) (strategy : Operation) (w : World) (a b : raw)
    : outcome (Decimal.t * Calculation.t) :=
  validated_a <- validate_number rt a self.(config) ;;
  validated_b <- validate_number rt b self.(config) ;;
  result <- strategy.(execute) validated_a validated_b ;;
  calculation <-
    Calculation.__post_init__ rt strategy.(operation_name)
      validated_a validated_b w.(clock) ;;
  Ok (result, calculation).

Definition perform_operation (self : t) (w : World) (a b : raw)
    : outcome Decimal.t * t * World :=
  match self.(operation_strategy) with
  | None => (raise OperationError "No operation set", self, w)
  | Some strategy =>
      match prepare self strategy w a b with
      | Raised e => (normalize (Raised e), self, w)
      | Ok (result, calculation) =>
          let self' := commit self calculation in
          let '(notified, w') := notify_observers self' w calculation in
          (normalize (_ <- notified ;; Ok result), self', w')
      end
  end.

(** The dictionary [load_history] builds from one row. *)
Definition dict_of_row (row : dict) : outcome dict :=
  operation <- getitem row "operation" ;;
  operand1 <- getitem row "operand1" ;;
  operand2 <- getitem row "operand2" ;;
  result <- getitem row "result" ;;
  timestamp <- getitem row "timestamp" ;;
  Ok [ ("operation", operation); ("operand1", operand1);
       ("operand2", operand2); ("result", result);
       ("timestamp", timestamp) ].

Fixpoint load_rows (now : Datetime.t) (rows : list dict)
    : outcome (list Calculation.t) :=
  match rows with
  | [] => Ok []
  | row :: rest =>
      data <- dict_of_row row ;;
      loaded <- Calculation.from_dict rt now data ;;
      others <- load_rows now rest ;;
      Ok (fst loaded :: others)
  end.

(** [load_history()]: the rows of the file replace the history; a
    missing file, or one with the header and no rows, leaves it as it is;
    whatever is raised on the way, by [read_csv] or by [from_dict], is
    raised again as an [OperationError]. *)
Definition load_history (self : t) (w : World) : outcome unit * t :=
  match w.(io_error) with
  | Some msg => (raise OperationError ("Failed to load history: " ++ msg), self)
  | None =>
      match w.(history_file) with
      | None => (Ok tt, self)
      | Some rows =>
          match w.(unreadable) with
          | Some msg =>
              (raise OperationError ("Failed to load history: " ++ msg), self)
          | None =>
              match rows with
              | [] => (Ok tt, self)
              | _ =>
                  match load_rows w.(clock) rows with
                  | Ok loaded => (Ok tt, set_history self loaded)
                  | Raised e =>
                      (raise OperationError
                         ("Failed to load history: " ++ exc_str e),
                       self)
                  end
              end
          end
      end
  end.

(** [__init__], from the point where the history is initialised: empty
    history, no operation, no observers, empty stacks, then [load_history],
    whose failure is logged and otherwise ignored.  The steps before that
    point (validation of the configuration, directories, logging) are not
    part of the model. *)
Definition __init__ (config : CalculatorConfig) (w : World) : t :=
  let self := mk config [] None [] [] [] in
  match load_history self w with
  | (Ok _, self') => self'
  | (Raised _, self') => self'
  end.

End WithRuntime.

Definition show_history (self : t) : list string :=
  map (fun calc =>
         calc.(Calculation.operation) ++ "(" ++
         Decimal.to_str calc.(Calculation.operand1) ++ ", " ++
         Decimal.to_str calc.(Calculation.operand2) ++ ") = " ++
         Decimal.to_str calc.(Calculation.result))
      self.(history).

Definition clear_history (self : t) : t :=
  mk self.(config) [] self.(operation_strategy) self.(observers) [] [].

Definition undo (self : t) : bool * t :=
  match pop self.(undo_stack) with
  | None => (false, self)
  | Some (memento, rest) =>
      let self1 := set_undo_stack self rest in
      let self2 :=
        set_redo_stack self1
          (self1.(redo_stack) ++ [mkMemento self1.(history)]) in
      (true, set_history self2 memento.(memento_history))
  end.

Definition redo (self : t) : bool * t :=
  match pop self.(redo_stack) with
  | None => (false, self)
  | Some (memento, rest) =>
      let self1 := set_redo_stack self rest in
      let self2 :=
        set_undo_stack self1
          (self1.(undo_stack) ++ [mkMemento self1.(history)]) in
      (true, set_history self2 memento.(memento_history))
  end.

End Calculator.

(** ** Fixtures for the examples *)

Module Fixtures.

(** A runtime for the examples.  Its validator reads a string as a
    decimal; its float [pow] always reports a range error, the one Python's
    reports for a result too large, so the examples of a returned value use
    the four arithmetic operations only. *)
Definition runtime : Runtime :=
  {| float := unit;
     float_of_decimal := fun _ => Ok tt;
     float_inverse := fun _ => Ok tt;
     float_pow := fun _ _ =>
       raise OverflowError "(34, 'Numerical result out of range')";
     decimal_of_float := fun _ => Decimal.zero;
     validate_number := fun value _ =>
       match value with
       | RawStr s =>
           try_except (Decimal.of_str s) [InvalidOperation]
             (fun _ => raise ValidationError ("Invalid number format: " ++ s))
       | RawInt z => Ok (Decimal.of_Z z)
       | RawDecimal d => Ok d
       end |}.

(** [Decimal(s)] for a literal that is well formed. *)
Definition D (s : string) : Decimal.t :=
  match Decimal.of_str s with
  | Ok d => d
  | Raised _ => Decimal.zero
  end.

Definition Addition : Operation := mkOperation "Addition" Decimal.add.

Definition noon : Datetime.t := Datetime.mk 2025 10 6 12 0 0 0.

Definition world : World := mkWorld None None noon.

(** A calculator as [__init__] leaves it when there is no history file. *)
Definition fresh (max_size : Z) : Calculator.t :=
  Calculator.mk (mkConfig max_size false) [] None [] [] [].

Definition row (operation operand1 operand2 result timestamp : string) : dict :=
  [ ("operation", operation); ("operand1", operand1);
    ("operand2", operand2); ("result", result); ("timestamp", timestamp) ].

(** A history file of three rows. *)
Definition three_rows : list dict :=
  [ row "Addition" "2.5" "3.5" "6.0" "2025-10-06T12:00:00";
    row "Subtraction" "9.5" "1.5" "8.0" "2025-10-06T12:00:01";
    row "Multiplication" "2.5" "4.5" "11.25" "2025-10-06T12:00:02.500000" ].

(** The states of a session: two additions on a fresh calculator. *)
Definition s0 : Calculator.t := Calculator.set_operation (fresh 10) Addition.
Definition c1 : Calculation.t :=
  Calculation.mk "Addition" (D "2.5") (D "3.5") (D "6.0") noon.
Definition c2 : Calculation.t :=
  Calculation.mk "Addition" (D "1") (D "2") (D "3") noon.
Definition c3 : Calculation.t :=
  Calculation.mk "Addition" (D "10") (D "0.5") (D "10.5") noon.
Definition s1 : Calculator.t := Calculator.commit s0 c1.
Definition s2 : Calculator.t := Calculator.commit s1 c2.

(** A calculator that saves after every calculation, and a disk that
    refuses to write. *)
Definition saving : Calculator.t :=
  Calculator.mk (mkConfig 10 true) [] (Some Addition)
    [LoggingObserver; AutoSaveObserver] [] [].
Definition full_disk : World := mkWorld None (Some "disk full") noon.

(** A calculator with room for two records whose history holds three. *)
Definition overfull : Calculator.t :=
  Calculator.set_history (Calculator.set_operation (fresh 2) Addition)
    [c1; c2; c3].

(** Numbers for the examples of the first calculator: integers stand in
    for floats, with the integer quotient for [/]. *)
Definition integers : FloatArith :=
  mkFloatArith Z Z.add Z.sub Z.mul Z.div (fun b => Z.eqb b 0).

(** The same session with room for one record only. *)
Definition t0 : Calculator.t := Calculator.set_operation (fresh 1) Addition.
Definition t1 : Calculator.t := Calculator.commit t0 c1.
Definition t2 : Calculator.t := Calculator.commit t1 c2.

End Fixtures.

Local Open Scope list_scope.

(** ** The vocabulary of the properties *)

(** The ways [perform_operation] can fail before it touches the history:
    an operand is rejected by the validator, the operation raises, or the
    record cannot be built. *)
Definition fails_before_commit (rt : Runtime) (self : Calculator.t)
    (strategy : Operation) (w : World) (a b : raw) : Prop :=
  (exists e, validate_number rt a (Calculator.config self) = Raised e) \/
  (exists va e,
      validate_number rt a (Calculator.config self) = Ok va /\
      validate_number rt b (Calculator.config self) = Raised e) \/
  (exists va vb e,
      validate_number rt a (Calculator.config self) = Ok va /\
      validate_number rt b (Calculator.config self) = Ok vb /\
      execute strategy va vb = Raised e) \/
  (exists va vb r e,
      validate_number rt a (Calculator.config self) = Ok va /\
      validate_number rt b (Calculator.config self) = Ok vb /\
      execute strategy va vb = Ok r /\
      Calculation.__post_init__ rt (operation_name strategy) va vb (clock w)
        = Raised e).

(** The validator refuses an operand: the exception it raises for [a], or
    for [b] once [a] has passed. *)
Definition validation_fails (rt : Runtime) (self : Calculator.t) (a b : raw)
    (e : exception) : Prop :=
  validate_number rt a (Calculator.config self) = Raised e \/
  (exists va,
      validate_number rt a (Calculator.config self) = Ok va /\
      validate_number rt b (Calculator.config self) = Raised e).

(** The exception that the [try] block of [perform_operation] raises: that
    of a statement before the commit, or that of an observer after it. *)
Definition raised_in_try (rt : Runtime) (self : Calculator.t)
    (strategy : Operation) (w : World) (a b : raw) (e : exception) : Prop :=
  Calculator.prepare rt self strategy w a b = Raised e \/
  (exists result calculation w',
      Calculator.prepare rt self strategy w a b = Ok (result, calculation) /\
      Calculator.notify_observers (Calculator.commit self calculation) w
        calculation = (Raised e, w')).

(** The history and every snapshot on the two stacks fit the bound. *)
Definition bounded (self : Calculator.t) : Prop :=
  let fits (h : list Calculation.t) :=
    (Z.of_nat (List.length h) <= max_history_size (Calculator.config self))%Z in
  fits (Calculator.history self) /\
  Forall (fun m => fits (memento_history m)) (Calculator.undo_stack self) /\
  Forall (fun m => fits (memento_history m)) (Calculator.redo_stack self).

(** What [calculate] does with a failure of the operation: the arithmetic
    exceptions become an [OperationError]. *)
Definition wrap_failure (m : outcome Decimal.t) : outcome Decimal.t :=
  try_except m [InvalidOperation; ValueError; ArithmeticError]
    (fun e => raise OperationError ("Calculation failed: " ++ exc_str e)%string).

(** The exceptions of the decimal arithmetic are its three trapped signals. *)
Definition is_signal (e : exception) : Prop :=
  exc_type e = InvalidOperation \/ exc_type e = DivisionByZero \/
  exc_type e = Overflow.

(** The float computation of Root, [Decimal(pow(float(x), 1 / float(y)))]. *)
Definition Root_by_floats (rt : Runtime) (x y : Decimal.t) : outcome Decimal.t :=
  fx <- float_of_decimal rt x ;;
  fy <- float_of_decimal rt y ;;
  inv <- float_inverse rt fy ;;
  v <- float_pow rt fx inv ;;
  Calculation.Decimal_of_pow rt v.

(** The Root operation in the words of the claim, the two failures in the
    order the claim lists them: ["Zero root is undefined"] when [y == 0],
    then ["Cannot calculate root of negative number"] when [x < 0],
    otherwise the float computation, whose arithmetic failures [calculate]
    wraps. *)
Definition Root_in_words (rt : Runtime) (x y : Decimal.t) : outcome Decimal.t :=
  zero_degree <- Decimal.eq y Decimal.zero ;;
  if zero_degree : bool then raise OperationError "Zero root is undefined"
  else
    negative <- Decimal.lt x Decimal.zero ;;
    if negative : bool
    then raise OperationError "Cannot calculate root of negative number"
    else wrap_failure (Root_by_floats rt x y).

(** A text made of digits only. *)
Definition all_digits (l : list ascii) : Prop :=
  Forall (fun c => Text.is_digit c = true) l.

(** A text that does not go on with a digit. *)
Definition stops (l : list ascii) : Prop :=
  match l with
  | [] => True
  | c :: _ => Text.is_digit c = false
  end.

(** Neither white space nor an underscore. *)
Definition plain (c : ascii) : Prop :=
  Decimal.is_space c = false /\ Ascii.eqb c "_"%char = false.

(** The text of a number, in the parts the parser looks for. *)
Definition number_text (ip fp : list ascii) (dot : bool) (ex : option Z)
    : list ascii :=
  ip ++ (if dot then "."%char :: fp else []) ++
  match ex with
  | Some z => "E"%char :: Text.signed z
  | None => []
  end.

(** [data[key] = value] *)
Fixpoint setitem (data : dict) (key value : string) : dict :=
  match data with
  | [] => [(key, value)]
  | (k, v) :: rest =>
      if String.eqb k key then (k, value) :: rest
      else (k, v) :: setitem rest key value
  end.

(** [undo()] called [n] times, as long as each call returns true. *)
Fixpoint undo_times (n : nat) (self : Calculator.t) : option Calculator.t :=
  match n with
  | O => Some self
  | S n' =>
      match Calculator.undo self with
      | (true, self') => undo_times n' self'
      | (false, _) => None
      end
  end.

(** [perform_operation] on each pair of operands in turn, as long as each
    call returns. *)
Fixpoint perform_all (rt : Runtime) (self : Calculator.t) (w : World)
    (inputs : list (raw * raw)) : option (Calculator.t * World) :=
  match inputs with
  | [] => Some (self, w)
  | (a, b) :: rest =>
      match Calculator.perform_operation rt self w a b with
      | (Ok _, self', w') => perform_all rt self' w' rest
      | (Raised _, _, _) => None
      end
  end.

(** A record whose dictionary can be read back: its result is what
    [calculate] computes from its operands, its timestamp is a valid date
    and time, and its result is not a signaling NaN. *)
Definition loadable (rt : Runtime) (c : Calculation.t) : Prop :=
  Calculation.calculate rt (Calculation.operation c)
    (Calculation.operand1 c) (Calculation.operand2 c)
    = Ok (Calculation.result c) /\
  Datetime.valid (Calculation.timestamp c) = true /\
  Decimal.is_snan (Calculation.result c) = false.

(** The world after a save that worked: the file holds the rows of the
    history. *)
Definition saved_world (self : Calculator.t) (w : World) : World :=
  mkWorld (Some (map Calculator.row_of (Calculator.history self))) None (clock w).

(** Whether an observer is an [AutoSaveObserver]. *)
Definition is_auto_save (o : HistoryObserver) : bool :=
  match o with AutoSaveObserver => true | LoggingObserver => false end.

(** A registry as [register_calculation] builds it: no key twice, every
    key in lower case. *)
Definition well_formed_registry {Class : Type}
    (r : CalculationFactory.registry Class) : Prop :=
  NoDup (CalculationFactory.keys Class r) /\
  Forall (fun k => Text.lower k = k) (CalculationFactory.keys Class r).

(** * Properties *)

(** ** Lists used as stacks *)

Lemma pop_snoc {A : Type} (l : list A) (x : A) :
  Calculator.pop (l ++ [x]) = Some (x, l).
Proof.
  induction l as [|y l IH]; simpl.
  - reflexivity.
  - rewrite IH. reflexivity.
Qed.

Lemma pop_nil_inv {A : Type} (l : list A) :
  Calculator.pop l = None -> l = [].
Proof.
  destruct l as [|x r]; simpl; [reflexivity|].
  destruct (Calculator.pop r) as [[y r']|]; discriminate.
Qed.

(** ** The engine: what a call of [perform_operation] does *)

Section Engine.
Variable rt : Runtime.

Lemma normalize_raised {A : Type} (e : exception) :
  exists e', @Calculator.normalize A (Raised e) = Raised e'.
Proof.
  unfold Calculator.normalize.
  destruct (isinstance e [ValidationError]); [eauto|].
  destruct (isinstance e [Exception]); unfold raise; eauto.
Qed.

(** A call that returns has run every statement: the record was built and
    committed. *)
Lemma perform_operation_ok self w a b r self' w' :
  Calculator.perform_operation rt self w a b = (Ok r, self', w') ->
  exists strategy calculation,
    Calculator.operation_strategy self = Some strategy /\
    Calculator.prepare rt self strategy w a b = Ok (r, calculation) /\
    self' = Calculator.commit self calculation.
Proof.
  unfold Calculator.perform_operation.
  destruct (Calculator.operation_strategy self) as [strategy|]; [|discriminate].
  destruct (Calculator.prepare rt self strategy w a b) as [[r0 c]|e] eqn:Hp.
  - destruct (Calculator.notify_observers _ w c) as [n w0].
    destruct n as [u|e]; cbn [Py.bind].
    + simpl. intros H. inversion H. subst. eauto.
    + destruct (normalize_raised (A := Decimal.t) e) as [e' He'].
      rewrite He'. discriminate.
  - destruct (normalize_raised (A := Decimal.t) e) as [e' He'].
    rewrite He'. discriminate.
Qed.

Lemma commit_config self c :
  Calculator.config (Calculator.commit self c) = Calculator.config self.
Proof. unfold Calculator.commit; simpl. destruct (_ >? _)%Z; reflexivity. Qed.

Lemma commit_undo_stack self c :
  Calculator.undo_stack (Calculator.commit self c) =
  Calculator.undo_stack self ++ [mkMemento (Calculator.history self)].
Proof. unfold Calculator.commit; simpl. destruct (_ >? _)%Z; reflexivity. Qed.

Lemma commit_redo_stack self c :
  Calculator.redo_stack (Calculator.commit self c) = [].
Proof. unfold Calculator.commit; simpl. destruct (_ >? _)%Z; reflexivity. Qed.

(** The new record goes to the end; the oldest one leaves when the bound
    is passed. *)
Lemma commit_history self c :
  Calculator.history (Calculator.commit self c) =
  if (Z.of_nat (List.length (Calculator.history self ++ [c]))
        >? max_history_size (Calculator.config self))%Z
  then tl (Calculator.history self ++ [c])
  else Calculator.history self ++ [c].
Proof. unfold Calculator.commit; simpl. destruct (_ >? _)%Z; reflexivity. Qed.

(** Undo after a commit brings back the history the commit started from. *)
Lemma undo_commit self c :
  exists self',
    Calculator.undo (Calculator.commit self c) = (true, self') /\
    Calculator.history self' = Calculator.history self /\
    Calculator.undo_stack self' = Calculator.undo_stack self /\
    Calculator.redo_stack self' =
      [mkMemento (Calculator.history (Calculator.commit self c))].
Proof.
  unfold Calculator.undo.
  rewrite commit_undo_stack, pop_snoc. simpl.
  rewrite commit_redo_stack. simpl.
  eexists. repeat split; reflexivity.
Qed.

(** Redo after that undo gives the committed state again. *)
Lemma undo_redo_commit self c :
  exists self',
    Calculator.undo (Calculator.commit self c) = (true, self') /\
    Calculator.redo self' = (true, Calculator.commit self c).
Proof.
  destruct self as [cfg h s o u r].
  unfold Calculator.undo, Calculator.redo, Calculator.commit; simpl.
  destruct (_ >? _)%Z; simpl; rewrite pop_snoc; simpl;
    eexists; split; reflexivity.
Qed.

End Engine.

(** ** Undo and redo *)

(** C1.  When two calls of [perform_operation] have returned and the history
    is [[c1; c2]], [undo()] returns true, [redo()] after it returns true, and
    the history is again [[c1; c2]], the very same records; the whole
    calculator is as it was before the undo. *)
Theorem undo_redo_round_trip
    (rt : Runtime) (self0 : Calculator.t) (w0 : World) (a1 b1 a2 b2 : raw)
    (r1 r2 : Decimal.t) (self1 self2 : Calculator.t) (w1 w2 : World)
    (c1 c2 : Calculation.t) :
  Calculator.perform_operation rt self0 w0 a1 b1 = (Ok r1, self1, w1) ->
  Calculator.perform_operation rt self1 w1 a2 b2 = (Ok r2, self2, w2) ->
  Calculator.history self2 = [c1; c2] ->
  exists self3 self4,
    Calculator.undo self2 = (true, self3) /\
    Calculator.redo self3 = (true, self4) /\
    Calculator.history self4 = [c1; c2] /\
    self4 = self2.
Proof.
  intros _ H2 Hh.
  apply perform_operation_ok in H2.
  destruct H2 as (strategy & c & _ & _ & ->).
  destruct (undo_redo_commit self1 c) as (self3 & Hu & Hr).
  exists self3, (Calculator.commit self1 c). auto.
Qed.

(** C2.  A call of [perform_operation] that returns leaves the redo stack
    empty, so [redo()] then returns false and changes nothing; in particular
    after a calculation, its undo, and a new calculation. *)
Theorem perform_operation_clears_redo
    (rt : Runtime) (self : Calculator.t) (w : World) (a b : raw)
    (r : Decimal.t) (self' : Calculator.t) (w' : World) :
  Calculator.perform_operation rt self w a b = (Ok r, self', w') ->
  Calculator.redo_stack self' = [] /\
  Calculator.redo self' = (false, self') /\
  forall undone a2 b2 r2 self2 w2,
    Calculator.undo self' = (true, undone) ->
    Calculator.perform_operation rt undone w' a2 b2 = (Ok r2, self2, w2) ->
    Calculator.redo self2 = (false, self2).
Proof.
  assert (G : forall s v x y q s' v',
             Calculator.perform_operation rt s v x y = (Ok q, s', v') ->
             Calculator.redo_stack s' = [] /\ Calculator.redo s' = (false, s')).
  { intros s v x y q s' v' H.
    apply perform_operation_ok in H.
    destruct H as (strategy & c & _ & _ & ->).
    split; [apply commit_redo_stack|].
    unfold Calculator.redo. rewrite commit_redo_stack. reflexivity. }
  intros H. destruct (G _ _ _ _ _ _ _ H) as [E1 E2].
  repeat split; trivial.
  intros undone a2 b2 r2 self2 w2 _ H2.
  exact (proj2 (G _ _ _ _ _ _ _ H2)).
Qed.

(** C10.  With the history at its bound, a call of [perform_operation] that
    returns has evicted the oldest record, and [undo()] after it brings the
    whole earlier history back, the evicted record included. *)
Theorem undo_restores_evicted
    (rt : Runtime) (self : Calculator.t) (w : World) (a b : raw)
    (r : Decimal.t) (self' : Calculator.t) (w' : World)
    (oldest : Calculation.t) (others : list Calculation.t) :
  Calculator.history self = oldest :: others ->
  Z.of_nat (List.length (Calculator.history self)) =
    max_history_size (Calculator.config self) ->
  Calculator.perform_operation rt self w a b = (Ok r, self', w') ->
  exists calculation undone,
    Calculator.history self' = others ++ [calculation] /\
    Calculator.undo self' = (true, undone) /\
    Calculator.history undone = oldest :: others.
Proof.
  intros Hh Hb H.
  apply perform_operation_ok in H.
  destruct H as (strategy & c & _ & _ & ->).
  destruct (undo_commit self c) as (undone & Hu & Hh' & _).
  exists c, undone. repeat split.
  - rewrite commit_history.
    replace (_ >? _)%Z with true.
    + rewrite Hh. reflexivity.
    + symmetry. apply Z.gtb_lt. rewrite <- Hb, length_app. simpl. lia.
  - exact Hu.
  - rewrite Hh'. exact Hh.
Qed.

(** ** Failures of [perform_operation] *)

Lemma fails_before_commit_prepare rt self strategy w a b :
  fails_before_commit rt self strategy w a b ->
  exists e, Calculator.prepare rt self strategy w a b = Raised e.
Proof.
  unfold Calculator.prepare.
  intros [(e & H)|[(va & e & Ha & H)|[(va & vb & e & Ha & Hb & H)
                                    |(va & vb & r & e & Ha & Hb & Hx & H)]]].
  - rewrite H. simpl. eauto.
  - rewrite Ha, H. simpl. eauto.
  - rewrite Ha, Hb. simpl. rewrite H. simpl. eauto.
  - rewrite Ha, Hb. simpl. rewrite Hx. simpl. rewrite H. simpl. eauto.
Qed.

(** C9.  When [perform_operation] fails before the commit, it raises and
    the calculator is untouched: history, undo stack and redo stack are
    what they were, and so is the history file. *)
Theorem perform_operation_atomic_before_commit
    (rt : Runtime) (self : Calculator.t) (strategy : Operation) (w : World)
    (a b : raw) :
  Calculator.operation_strategy self = Some strategy ->
  fails_before_commit rt self strategy w a b ->
  exists e self' w',
    Calculator.perform_operation rt self w a b = (Raised e, self', w') /\
    Calculator.history self' = Calculator.history self /\
    Calculator.undo_stack self' = Calculator.undo_stack self /\
    Calculator.redo_stack self' = Calculator.redo_stack self /\
    self' = self /\ w' = w.
Proof.
  intros Hs Hf.
  destruct (fails_before_commit_prepare _ _ _ _ _ _ Hf) as [e He].
  unfold Calculator.perform_operation. rewrite Hs, He.
  destruct (normalize_raised (A := Decimal.t) e) as [e' He'].
  rewrite He'. exists e', self, w. repeat split; reflexivity.
Qed.

(** After the commit the picture is different: when an observer raises,
    the call fails and the record is already in the history. *)
Lemma observer_failure_after_commit :
  Calculator.perform_operation Fixtures.runtime Fixtures.saving
    Fixtures.full_disk (RawStr "2.5") (RawStr "3.5")
  = (Raised (mkExc OperationError
               "Operation failed: Failed to save history: disk full"),
     Calculator.commit Fixtures.saving Fixtures.c1, Fixtures.full_disk) /\
  Calculator.history (Calculator.commit Fixtures.saving Fixtures.c1)
  = [Fixtures.c1].
Proof. split; reflexivity. Qed.

Lemma isinstance_ValidationError (e : exception) :
  isinstance e [ValidationError] = true -> exc_type e = ValidationError.
Proof. destruct e as [[] m]; simpl; intros H; try discriminate H; reflexivity. Qed.

Lemma isinstance_Exception (e : exception) : isinstance e [Exception] = true.
Proof. destruct e as [[] m]; reflexivity. Qed.

Lemma normalize_classes {A : Type} (e e' : exception) :
  @Calculator.normalize A (Raised e) = Raised e' ->
  e' = (if isinstance e [ValidationError] then e
        else mkExc OperationError ("Operation failed: " ++ exc_str e)%string).
Proof.
  unfold Calculator.normalize.
  destruct (isinstance e [ValidationError]).
  - intros H. inversion H. reflexivity.
  - rewrite isinstance_Exception. unfold raise. intros H. inversion H. reflexivity.
Qed.

Lemma issubclass_ValidationError (c : exc_class) :
  issubclass c ValidationError = true <-> c = ValidationError.
Proof. destruct c; split; intros H; try discriminate H; reflexivity. Qed.

Lemma not_ValidationError (c : exc_class) :
  c <> ValidationError -> issubclass c ValidationError = false.
Proof.
  intros N. destruct (issubclass c ValidationError) eqn:E; [|reflexivity].
  apply issubclass_ValidationError in E. contradiction.
Qed.

(** The observers raise nothing but the [OperationError] of a save that
    failed. *)
Lemma notify_raised l self w c e w' :
  Calculator.notify l self w c = (Raised e, w') -> exc_type e = OperationError.
Proof.
  revert w. induction l as [|o l IH]; simpl; intros w H; [discriminate H|].
  destruct (Calculator.update o self w c) as [[u|x] w0] eqn:U.
  - exact (IH w0 H).
  - inversion H; subst. clear H.
    unfold Calculator.update, Calculator.save_history in U.
    destruct o; [discriminate U|].
    destruct (auto_save (Calculator.config self)); [|discriminate U].
    destruct (io_error w); inversion U. reflexivity.
Qed.

(** What [prepare] raises is what the validator raised for an operand, what
    the operation raised, or what the constructor of the record raised. *)
Lemma prepare_raised rt self strategy w a b e :
  Calculator.prepare rt self strategy w a b = Raised e ->
  validation_fails rt self a b e \/
  (exists va vb, execute strategy va vb = Raised e) \/
  (exists va vb,
      Calculation.__post_init__ rt (operation_name strategy) va vb (clock w)
        = Raised e).
Proof.
  unfold Calculator.prepare, validation_fails.
  destruct (validate_number rt a (Calculator.config self)) as [va|ea] eqn:Ha;
    cbn [Py.bind].
  2:{ intros H. inversion H; subst. auto. }
  destruct (validate_number rt b (Calculator.config self)) as [vb|eb] eqn:Hb;
    cbn [Py.bind].
  2:{ intros H. inversion H; subst. left. right. eauto. }
  destruct (execute strategy va vb) as [r|ex] eqn:Hx; cbn [Py.bind].
  2:{ intros H. inversion H; subst. right. left. eauto. }
  destruct (Calculation.__post_init__ rt (operation_name strategy) va vb (clock w))
    as [c|ec] eqn:Hc; cbn [Py.bind].
  - discriminate.
  - intros H. inversion H; subst. right. right. eauto.
Qed.

(** When [perform_operation] raises with an operation set, the [try] block
    raised, and the two [except] clauses decide what the caller gets. *)
Lemma perform_operation_raised rt self strategy w a b e self' w' :
  Calculator.operation_strategy self = Some strategy ->
  Calculator.perform_operation rt self w a b = (Raised e, self', w') ->
  exists e0,
    raised_in_try rt self strategy w a b e0 /\
    e = (if issubclass (exc_type e0) ValidationError then e0
         else mkExc OperationError ("Operation failed: " ++ exc_str e0)%string).
Proof.
  intros Hs H. unfold Calculator.perform_operation in H. rewrite Hs in H.
  unfold raised_in_try.
  assert (N : forall e0, @Calculator.normalize Decimal.t (Raised e0) = Raised e ->
              e = (if issubclass (exc_type e0) ValidationError then e0
                   else mkExc OperationError
                          ("Operation failed: " ++ exc_str e0)%string)).
  { intros e0 Hn. apply normalize_classes in Hn. rewrite Hn.
    unfold isinstance. simpl. rewrite orb_false_r. reflexivity. }
  destruct (Calculator.prepare rt self strategy w a b) as [[r c]|e0].
  - destruct (Calculator.notify_observers _ w c) as [[u|e0] w0] eqn:Hn;
      cbn [Py.bind] in H.
    + simpl in H. inversion H.
    + exists e0. split.
      * right. exists r, c, w0. auto.
      * apply N. inversion H. reflexivity.
  - exists e0. split; [left; reflexivity|]. apply N. inversion H. reflexivity.
Qed.

(** C5.  Whatever goes wrong in [perform_operation], the caller sees a
    [ValidationError] or an [OperationError]: no other class of exception
    leaves the call.  When the validator refuses an operand with a
    [ValidationError], that very exception reaches the caller, unwrapped, and
    the calculator and the history file are as they were.  Every exception
    of the [try] block that is not a [ValidationError], whether the
    validator, the operation, the constructor of the record or an observer
    raised it, is replaced by an [OperationError] whose text is
    ["Operation failed: "] and the text of the original; with no operation
    set the failure is the [OperationError] ["No operation set"].  So when
    neither the operation nor the constructor of the record raises a
    [ValidationError], every failure that is not the validator's
    [ValidationError] is an [OperationError]. *)
Theorem perform_operation_error_policy
    (rt : Runtime) (self : Calculator.t) (w : World) (a b : raw)
    (e : exception) (self' : Calculator.t) (w' : World) :
  Calculator.perform_operation rt self w a b = (Raised e, self', w') ->
  (exc_type e = ValidationError \/ exc_type e = OperationError) /\
  (forall strategy e0,
      Calculator.operation_strategy self = Some strategy ->
      validation_fails rt self a b e0 ->
      exc_type e0 = ValidationError ->
      e = e0 /\ self' = self /\ w' = w) /\
  (forall strategy e0,
      Calculator.operation_strategy self = Some strategy ->
      raised_in_try rt self strategy w a b e0 ->
      e = (if issubclass (exc_type e0) ValidationError then e0
           else mkExc OperationError ("Operation failed: " ++ exc_str e0)%string)) /\
  (Calculator.operation_strategy self = None ->
   e = mkExc OperationError "No operation set") /\
  (forall strategy,
      Calculator.operation_strategy self = Some strategy ->
      (forall va vb e0,
          execute strategy va vb = Raised e0 -> exc_type e0 <> ValidationError) ->
      (forall va vb e0,
          Calculation.__post_init__ rt (operation_name strategy) va vb (clock w)
            = Raised e0 ->
          exc_type e0 <> ValidationError) ->
      (exists e0, validation_fails rt self a b e0 /\
                  exc_type e0 = ValidationError /\ e = e0) \/
      exc_type e = OperationError).
Proof.
  intros H.
  assert (V : forall strategy e0,
             Calculator.operation_strategy self = Some strategy ->
             validation_fails rt self a b e0 ->
             Calculator.prepare rt self strategy w a b = Raised e0).
  { intros strategy e0 Hs [Ha|(va & Ha & Hb)]; unfold Calculator.prepare.
    - rewrite Ha. reflexivity.
    - rewrite Ha. simpl. rewrite Hb. reflexivity. }
  split; [|split; [|split; [|split]]].
  - destruct (Calculator.operation_strategy self) as [strategy|] eqn:Hs.
    + destruct (perform_operation_raised _ _ _ _ _ _ _ _ _ Hs H) as (e0 & _ & E).
      destruct (issubclass (exc_type e0) ValidationError) eqn:C; subst e.
      * left. apply issubclass_ValidationError. exact C.
      * right. reflexivity.
    + unfold Calculator.perform_operation in H. rewrite Hs in H.
      inversion H. right. reflexivity.
  - intros strategy e0 Hs Hv Hc.
    pose proof (V strategy e0 Hs Hv) as Hp.
    unfold Calculator.perform_operation in H. rewrite Hs, Hp in H.
    inversion H as [[Hn Hself Hw]].
    apply normalize_classes in Hn. rewrite Hn.
    unfold isinstance. simpl. rewrite Hc. simpl. auto.
  - intros strategy e0 Hs Hr.
    unfold Calculator.perform_operation in H. rewrite Hs in H.
    assert (N : forall x, @Calculator.normalize Decimal.t (Raised x) = Raised e ->
                e = (if issubclass (exc_type x) ValidationError then x
                     else mkExc OperationError
                            ("Operation failed: " ++ exc_str x)%string)).
    { intros x Hn. apply normalize_classes in Hn. rewrite Hn.
      unfold isinstance. simpl. rewrite orb_false_r. reflexivity. }
    destruct Hr as [Hp|(r & c & w0 & Hp & Hn)].
    + rewrite Hp in H. apply N. inversion H. reflexivity.
    + rewrite Hp, Hn in H. cbn [Py.bind] in H. apply N. inversion H. reflexivity.
  - intros Hs. unfold Calculator.perform_operation in H. rewrite Hs in H.
    inversion H. reflexivity.
  - intros strategy Hs Hx Hc.
    destruct (perform_operation_raised _ _ _ _ _ _ _ _ _ Hs H) as (e0 & Hr & E).
    destruct (issubclass (exc_type e0) ValidationError) eqn:C.
    + apply issubclass_ValidationError in C. subst e.
      destruct Hr as [Hp|(r & c & w0 & _ & Hn)].
      * apply prepare_raised in Hp.
        destruct Hp as [Hv|[(va & vb & X)|(va & vb & X)]].
        -- left. exists e0. auto.
        -- exfalso. exact (Hx va vb e0 X C).
        -- exfalso. exact (Hc va vb e0 X C).
      * apply notify_raised in Hn. right. exact Hn.
    + subst e. right. reflexivity.
Qed.

(** ** The bound on the history *)

Lemma pop_Forall {A : Type} (P : A -> Prop) (l r : list A) (x : A) :
  Calculator.pop l = Some (x, r) -> Forall P l -> P x /\ Forall P r.
Proof.
  revert r x. induction l as [|y l IH]; simpl; intros r x H F; [discriminate|].
  inversion F as [|? ? Py Fl]; subst.
  destruct (Calculator.pop l) as [[z l']|] eqn:E.
  - inversion H; subst. destruct (IH _ _ eq_refl Fl) as [Pz Fl']. auto.
  - inversion H; subst. auto.
Qed.

Lemma commit_bounded self c : bounded self -> bounded (Calculator.commit self c).
Proof.
  unfold bounded. intros (Hh & Hu & Hr).
  rewrite commit_config, commit_undo_stack, commit_redo_stack, commit_history.
  repeat split.
  - destruct (_ >? _)%Z eqn:E.
    + assert (L : List.length (tl (Calculator.history self ++ [c]))
                  = List.length (Calculator.history self)).
      { destruct (Calculator.history self); simpl; [reflexivity|].
        rewrite length_app. simpl. lia. }
      rewrite L. exact Hh.
    + rewrite Z.gtb_ltb in E. apply Z.ltb_ge in E. exact E.
  - apply Forall_app. split; [exact Hu|]. constructor; [exact Hh|constructor].
  - constructor.
Qed.

Lemma undo_bounded self : bounded self -> bounded (snd (Calculator.undo self)).
Proof.
  unfold bounded, Calculator.undo. intros (Hh & Hu & Hr).
  destruct (Calculator.pop (Calculator.undo_stack self)) as [[m rest]|] eqn:E;
    simpl; [|auto].
  destruct (pop_Forall _ _ _ _ E Hu) as [Pm Frest].
  repeat split; trivial.
  apply Forall_app. split; [exact Hr|]. constructor; [exact Hh|constructor].
Qed.

Lemma redo_bounded self : bounded self -> bounded (snd (Calculator.redo self)).
Proof.
  unfold bounded, Calculator.redo. intros (Hh & Hu & Hr).
  destruct (Calculator.pop (Calculator.redo_stack self)) as [[m rest]|] eqn:E;
    simpl; [|auto].
  destruct (pop_Forall _ _ _ _ E Hr) as [Pm Frest].
  repeat split; trivial.
  apply Forall_app. split; [exact Hu|]. constructor; [exact Hh|constructor].
Qed.

Lemma clear_history_bounded self :
  (0 <= max_history_size (Calculator.config self))%Z ->
  bounded (Calculator.clear_history self).
Proof. unfold bounded; simpl. auto. Qed.

(** Whether it returns or raises, [perform_operation] leaves the calculator
    as it was or commits one record. *)
Lemma perform_operation_state rt self w a b :
  snd (fst (Calculator.perform_operation rt self w a b)) = self \/
  exists c, snd (fst (Calculator.perform_operation rt self w a b))
            = Calculator.commit self c.
Proof.
  unfold Calculator.perform_operation.
  destruct (Calculator.operation_strategy self) as [strategy|]; [|auto].
  destruct (Calculator.prepare rt self strategy w a b) as [[r c]|e]; [|auto].
  destruct (Calculator.notify_observers _ w c) as [n w0]. simpl.
  right. exists c. reflexivity.
Qed.

Lemma perform_operation_bounded rt self w a b :
  bounded self ->
  bounded (snd (fst (Calculator.perform_operation rt self w a b))).
Proof.
  intros B. destruct (perform_operation_state rt self w a b) as [E|[c E]];
    rewrite E; [exact B | apply commit_bounded; exact B].
Qed.

(** With room for two records, three calls that return leave the last two,
    the oldest gone first. *)
Lemma three_operations_keep_two rt self0 w0 a1 b1 a2 b2 a3 b3
    r1 r2 r3 self1 self2 self3 w1 w2 w3 :
  max_history_size (Calculator.config self0) = 2%Z ->
  Calculator.history self0 = [] ->
  Calculator.perform_operation rt self0 w0 a1 b1 = (Ok r1, self1, w1) ->
  Calculator.perform_operation rt self1 w1 a2 b2 = (Ok r2, self2, w2) ->
  Calculator.perform_operation rt self2 w2 a3 b3 = (Ok r3, self3, w3) ->
  exists k1 k2 k3,
    Calculator.history self1 = [k1] /\
    Calculator.history self2 = [k1; k2] /\
    Calculator.history self3 = [k2; k3].
Proof.
  intros Hm Hh H1 H2 H3.
  apply perform_operation_ok in H1. destruct H1 as (? & k1 & _ & _ & ->).
  apply perform_operation_ok in H2. destruct H2 as (? & k2 & _ & _ & ->).
  apply perform_operation_ok in H3. destruct H3 as (? & k3 & _ & _ & ->).
  exists k1, k2, k3.
  rewrite !commit_history, !commit_config, Hm, Hh. simpl. auto.
Qed.

(** C3, at a history file of three rows and a bound of two: [load_history]
    returns and the history holds three records.  Nothing in
    [load_history] applies the bound that [perform_operation] applies. *)
Theorem load_history_exceeds_bound :
  exists self',
    Calculator.load_history Fixtures.runtime (Fixtures.fresh 2)
      (mkWorld (Some Fixtures.three_rows) None Fixtures.noon) = (Ok tt, self') /\
    bounded (Fixtures.fresh 2) /\
    List.length (Calculator.history self') = 3%nat /\
    (Z.of_nat (List.length (Calculator.history self'))
       > max_history_size (Calculator.config self'))%Z.
Proof.
  eexists. split; [vm_compute; reflexivity|].
  split; [|split].
  - unfold bounded; simpl. repeat split; auto; lia.
  - reflexivity.
  - vm_compute. reflexivity.
Qed.

(** ** The theorems above at a concrete session *)

Lemma undo_redo_round_trip_witness :
  exists self3 self4,
    Calculator.undo Fixtures.s2 = (true, self3) /\
    Calculator.redo self3 = (true, self4) /\
    Calculator.history self4 = [Fixtures.c1; Fixtures.c2] /\
    self4 = Fixtures.s2.
Proof.
  apply (undo_redo_round_trip Fixtures.runtime Fixtures.s0 Fixtures.world
           (RawStr "2.5") (RawStr "3.5") (RawStr "1") (RawStr "2")
           (Fixtures.D "6.0") (Fixtures.D "3")
           Fixtures.s1 Fixtures.s2 Fixtures.world Fixtures.world);
    reflexivity.
Defined.

Lemma perform_operation_clears_redo_witness :
  Calculator.redo_stack Fixtures.s1 = [] /\
  Calculator.redo Fixtures.s1 = (false, Fixtures.s1) /\
  forall undone a2 b2 r2 self2 w2,
    Calculator.undo Fixtures.s1 = (true, undone) ->
    Calculator.perform_operation Fixtures.runtime undone Fixtures.world a2 b2
      = (Ok r2, self2, w2) ->
    Calculator.redo self2 = (false, self2).
Proof.
  apply (perform_operation_clears_redo Fixtures.runtime Fixtures.s0
           Fixtures.world (RawStr "2.5") (RawStr "3.5") (Fixtures.D "6.0")).
  reflexivity.
Defined.

Lemma undo_restores_evicted_witness :
  exists calculation undone,
    Calculator.history Fixtures.t2 = [] ++ [calculation] /\
    Calculator.undo Fixtures.t2 = (true, undone) /\
    Calculator.history undone = [Fixtures.c1].
Proof.
  apply (undo_restores_evicted Fixtures.runtime Fixtures.t1 Fixtures.world
           (RawStr "1") (RawStr "2") (Fixtures.D "3") Fixtures.t2 Fixtures.world);
    reflexivity.
Defined.

Lemma perform_operation_atomic_before_commit_witness :
  exists e self' w',
    Calculator.perform_operation Fixtures.runtime Fixtures.s2 Fixtures.world
      (RawStr "2.5") (RawStr "three") = (Raised e, self', w') /\
    Calculator.history self' = Calculator.history Fixtures.s2 /\
    Calculator.undo_stack self' = Calculator.undo_stack Fixtures.s2 /\
    Calculator.redo_stack self' = Calculator.redo_stack Fixtures.s2 /\
    self' = Fixtures.s2 /\ w' = Fixtures.world.
Proof.
  apply (perform_operation_atomic_before_commit Fixtures.runtime Fixtures.s2
           Fixtures.Addition).
  - reflexivity.
  - right. left. eexists. eexists. split; reflexivity.
Defined.

Lemma perform_operation_error_policy_witness :
  exc_type (mkExc ValidationError "Invalid number format: three") = ValidationError \/
  exc_type (mkExc ValidationError "Invalid number format: three") = OperationError.
Proof.
  apply (perform_operation_error_policy Fixtures.runtime Fixtures.s2
           Fixtures.world (RawStr "2.5") (RawStr "three")
           (mkExc ValidationError "Invalid number format: three")
           Fixtures.s2 Fixtures.world).
  reflexivity.
Defined.

(** ** The calculation factory *)

(** C8, as the code has it.  [create_calculation] with a name that is not
    registered raises [ValueError], which is not an [OperationError]; its
    text gives the name and then every registered name, in the order of
    registration, separated by commas.  [Calculation.calculate] with an
    operation it does not know raises [OperationError] with the text
    ["Unknown operation: "] and the name, and lists nothing. *)
Theorem unknown_operation_errors
    (Class Number : Type) (r : CalculationFactory.registry Class)
    (calculation_type : string) (a b : Number)
    (rt : Runtime) (operation : string) (x y : Decimal.t) :
  get r (Text.lower calculation_type) = None ->
  get (Calculation.operations rt) operation = None ->
  CalculationFactory.create_calculation Class Number r calculation_type a b
    = Raised (mkExc ValueError
        ("Unsupported calculation type: '" ++ calculation_type ++
         "'. Available types: " ++
         Text.join ", " (CalculationFactory.keys Class r))%string) /\
  issubclass ValueError OperationError = false /\
  Calculation.calculate rt operation x y
    = Raised (mkExc OperationError ("Unknown operation: " ++ operation)%string).
Proof.
  intros Hr Ho. unfold CalculationFactory.create_calculation, Calculation.calculate.
  rewrite Hr, Ho. repeat split; reflexivity.
Qed.

Lemma unknown_operation_errors_witness :
  CalculationFactory.create_calculation _ Z
    CalculationFactory.registered_at_import "Modulus" 7%Z 2%Z
    = Raised (mkExc ValueError
        ("Unsupported calculation type: '" ++ "Modulus" ++
         "'. Available types: " ++
         Text.join ", "
           (CalculationFactory.keys _ CalculationFactory.registered_at_import))%string) /\
  issubclass ValueError OperationError = false /\
  Calculation.calculate Fixtures.runtime "Modulus" (Fixtures.D "7") (Fixtures.D "2")
    = Raised (mkExc OperationError ("Unknown operation: " ++ "Modulus")%string).
Proof.
  apply (unknown_operation_errors _ Z CalculationFactory.registered_at_import
           "Modulus" 7%Z 2%Z Fixtures.runtime "Modulus"); reflexivity.
Defined.

(** C8, as the claim words it, fails on both paths: the factory's error
    lists the names but is a [ValueError]; the record's error is an
    [OperationError] but lists no name. *)
Lemma unknown_operation_not_an_operation_error_listing_names :
  CalculationFactory.create_calculation _ Z
    CalculationFactory.registered_at_import "modulus" 7%Z 2%Z
    = Raised (mkExc ValueError
        "Unsupported calculation type: 'modulus'. Available types: add, subtract, multiply, divide") /\
  isinstance
    (mkExc ValueError
       "Unsupported calculation type: 'modulus'. Available types: add, subtract, multiply, divide")
    [OperationError] = false /\
  Calculation.calculate Fixtures.runtime "Modulus" (Fixtures.D "7") (Fixtures.D "2")
    = Raised (mkExc OperationError "Unknown operation: Modulus").
Proof. repeat split; reflexivity. Qed.

(** ** Division and roots in [Calculation.calculate] *)

Lemma calculate_Division rt x y :
  Calculation.calculate rt "Division" x y =
  wrap_failure
    (nonzero <- Decimal.ne y Decimal.zero ;;
     if nonzero : bool then Decimal.div x y else Calculation._raise_div_zero).
Proof. reflexivity. Qed.

Lemma calculate_Root rt x y :
  Calculation.calculate rt "Root" x y =
  wrap_failure
    (x_nonneg <- Decimal.ge x Decimal.zero ;;
     defined <- (if x_nonneg : bool then Decimal.ne y Decimal.zero else Ok false) ;;
     if defined : bool then
       fx <- float_of_decimal rt x ;;
       fy <- float_of_decimal rt y ;;
       inv <- float_inverse rt fy ;;
       v <- float_pow rt fx inv ;;
       Calculation.Decimal_of_pow rt v
     else Calculation._raise_invalid_root x y).
Proof. reflexivity. Qed.

Lemma is_signal_caught e :
  is_signal e -> isinstance e [InvalidOperation; ValueError; ArithmeticError] = true.
Proof. destruct e as [c m]. intros [H|[H|H]]; simpl in H; subst c; reflexivity. Qed.

Lemma fix_signal s c e x : Decimal._fix s c e = Raised x -> is_signal x.
Proof.
  unfold Decimal._fix, is_signal, Decimal.overflow, raise.
  repeat match goal with
         | |- context [if ?b then _ else _] => destruct b
         end; intros H; inversion H; simpl; auto.
Qed.

Lemma check_nans_signal a b x :
  Decimal.check_nans a b = Some (Raised x) -> is_signal x.
Proof.
  unfold is_signal.
  destruct a, b; simpl; intros H; inversion H; simpl; auto.
Qed.

Lemma div_signal a b x : Decimal.div a b = Raised x -> is_signal x.
Proof.
  unfold Decimal.div.
  destruct (Decimal.check_nans a b) as [[d|e]|] eqn:N.
  - discriminate.
  - intros H. inversion H. subst. eapply check_nans_signal. exact N.
  - destruct a as [sa ca ea|sa|sa pa|sa pa], b as [sb cb eb|sb|sb pb|sb pb];
      try discriminate;
      try (intros H; inversion H; unfold is_signal; simpl; auto; fail).
    destruct (cb =? 0)%N.
    + destruct (ca =? 0)%N; intros H; inversion H; unfold is_signal; simpl; auto.
    + destruct (ca =? 0)%N; [apply fix_signal|].
      destruct (_ =? 0)%N.
      * destruct (Decimal.strip_zeros _ _ _ _) as [q' e']. apply fix_signal.
      * apply fix_signal.
Qed.

Lemma eq_signal a b x : Decimal.eq a b = Raised x -> is_signal x.
Proof.
  unfold Decimal.eq.
  destruct (Decimal.check_nans a b) as [[d|e]|] eqn:N; try discriminate.
  intros H. inversion H. subst. eapply check_nans_signal. exact N.
Qed.

Lemma calculate_Division_cases rt x y :
  Calculation.calculate rt "Division" x y =
  match Decimal.eq y Decimal.zero with
  | Ok true => Raised (mkExc OperationError "Division by zero is not allowed")
  | Ok false =>
      match Decimal.div x y with
      | Ok q => Ok q
      | Raised e =>
          Raised (mkExc OperationError ("Calculation failed: " ++ exc_str e)%string)
      end
  | Raised e =>
      Raised (mkExc OperationError ("Calculation failed: " ++ exc_str e)%string)
  end.
Proof.
  rewrite calculate_Division. unfold Decimal.ne, wrap_failure.
  destruct (Decimal.eq y Decimal.zero) as [[|]|e0] eqn:E; cbn [Py.bind negb].
  - reflexivity.
  - destruct (Decimal.div x y) as [q|e] eqn:Q; cbn [try_except]; [reflexivity|].
    rewrite (is_signal_caught e (div_signal _ _ _ Q)). reflexivity.
  - cbn [try_except]. rewrite (is_signal_caught e0 (eq_signal _ _ _ E)).
    reflexivity.
Qed.

(** C6, as the code has it.  Division raises [OperationError] with the text
    ["Division by zero is not allowed"] exactly when the divisor equals
    zero.  With a divisor that does not, the quotient of the decimal
    division is returned when that division yields one; when it raises
    (overflow, infinity by infinity) the failure is an [OperationError]
    with the text ["Calculation failed: "] and the signal's.  The float
    library has no part in it. *)
Theorem division_policy (rt : Runtime) (x y : Decimal.t) :
  (Calculation.calculate rt "Division" x y
     = Raised (mkExc OperationError "Division by zero is not allowed")
   <-> Decimal.eq y Decimal.zero = Ok true) /\
  (forall q, Decimal.eq y Decimal.zero = Ok false ->
             Decimal.div x y = Ok q ->
             Calculation.calculate rt "Division" x y = Ok q) /\
  (forall e, Decimal.eq y Decimal.zero = Ok false ->
             Decimal.div x y = Raised e ->
             Calculation.calculate rt "Division" x y
               = Raised (mkExc OperationError
                           ("Calculation failed: " ++ exc_str e)%string)) /\
  (forall rt', Calculation.calculate rt' "Division" x y
               = Calculation.calculate rt "Division" x y).
Proof.
  split; [|split; [|split]].
  - rewrite calculate_Division_cases.
    destruct (Decimal.eq y Decimal.zero) as [[|]|e0].
    + split; reflexivity.
    + destruct (Decimal.div x y) as [q|e]; split; intros H; discriminate H.
    + split; intros H; discriminate H.
  - intros q E Q. rewrite calculate_Division_cases, E, Q. reflexivity.
  - intros e E Q. rewrite calculate_Division_cases, E, Q. reflexivity.
  - intros rt'. rewrite !calculate_Division. reflexivity.
Qed.

Lemma division_policy_witness :
  Calculation.calculate Fixtures.runtime "Division" (Fixtures.D "1") (Fixtures.D "8")
    = Ok (Fixtures.D "0.125") /\
  Calculation.calculate Fixtures.runtime "Division" (Fixtures.D "1") (Fixtures.D "0.00")
    = Raised (mkExc OperationError "Division by zero is not allowed").
Proof.
  split.
  - apply (proj1 (proj2 (division_policy Fixtures.runtime (Fixtures.D "1")
                           (Fixtures.D "8")))); reflexivity.
  - apply (proj2 (proj1 (division_policy Fixtures.runtime (Fixtures.D "1")
                           (Fixtures.D "0.00")))); reflexivity.
Defined.

(** C6, as the claim words it, fails: with these finite divisors, none of
    them zero, division does not return. *)
Lemma division_by_nonzero_may_fail :
  Decimal.eq (Fixtures.D "1E-999999") Decimal.zero = Ok false /\
  Calculation.calculate Fixtures.runtime "Division"
    (Fixtures.D "1E+999999") (Fixtures.D "1E-999999")
    = Raised (mkExc OperationError "Calculation failed: [<class 'decimal.Overflow'>]") /\
  Decimal.eq (Fixtures.D "Infinity") Decimal.zero = Ok false /\
  Calculation.calculate Fixtures.runtime "Division"
    (Fixtures.D "Infinity") (Fixtures.D "Infinity")
    = Raised (mkExc OperationError
                "Calculation failed: [<class 'decimal.InvalidOperation'>]").
Proof. repeat split; reflexivity. Qed.

Lemma check_nans_none a b :
  Decimal.is_nan a = false -> Decimal.is_nan b = false ->
  Decimal.check_nans a b = None.
Proof. destruct a, b; simpl; intros; try discriminate; reflexivity. Qed.

Lemma eq_number a b :
  Decimal.is_nan a = false -> Decimal.is_nan b = false ->
  Decimal.eq a b = Ok match Decimal.cmp a b with Eq => true | _ => false end.
Proof.
  intros Na Nb. unfold Decimal.eq. rewrite (check_nans_none a b Na Nb).
  reflexivity.
Qed.

Lemma lt_number a b :
  Decimal.is_nan a = false -> Decimal.is_nan b = false ->
  Decimal.lt a b = Ok match Decimal.cmp a b with Lt => true | _ => false end.
Proof.
  intros Na Nb. unfold Decimal.lt, Decimal.ordered. rewrite Na, Nb. reflexivity.
Qed.

Lemma ge_number a b :
  Decimal.is_nan a = false -> Decimal.is_nan b = false ->
  Decimal.ge a b = Ok match Decimal.cmp a b with Lt => false | _ => true end.
Proof.
  intros Na Nb. unfold Decimal.ge, Decimal.ordered. rewrite Na, Nb. reflexivity.
Qed.

Lemma eq_not_signaling a b :
  Decimal.is_snan a = false -> Decimal.is_snan b = false ->
  Decimal.eq a b
  = Ok (if Decimal.is_nan a || Decimal.is_nan b then false
        else match Decimal.cmp a b with Eq => true | _ => false end).
Proof.
  unfold Decimal.eq.
  destruct a, b; simpl; intros Sa Sb; try discriminate; reflexivity.
Qed.

(** C7, as the code has it.  For a radicand x that is not a NaN and a
    degree y that is not a signaling NaN, Root is [Root_in_words]: it fails
    with ["Zero root is undefined"] when y == 0, with
    ["Cannot calculate root of negative number"] when x < 0, the two tested
    in that order, and otherwise it is the float computation
    [Decimal(pow(float(x), 1 / float(y)))]: its value is returned when it
    has one, and when it raises an arithmetic error the failure is an
    [OperationError] with the text ["Calculation failed: "] and the text of
    that error.  For x = -4 and y = 2 the failure is the second one. *)
Theorem root_policy (rt : Runtime) (x y : Decimal.t) :
  Decimal.is_nan x = false ->
  Decimal.is_snan y = false ->
  Calculation.calculate rt "Root" x y = Root_in_words rt x y /\
  (Decimal.eq y Decimal.zero = Ok true ->
   Calculation.calculate rt "Root" x y
     = Raised (mkExc OperationError "Zero root is undefined")) /\
  (Decimal.eq y Decimal.zero = Ok false ->
   Decimal.lt x Decimal.zero = Ok true ->
   Calculation.calculate rt "Root" x y
     = Raised (mkExc OperationError "Cannot calculate root of negative number")) /\
  (Decimal.eq y Decimal.zero = Ok false ->
   Decimal.lt x Decimal.zero = Ok false ->
   (forall r, Root_by_floats rt x y = Ok r ->
              Calculation.calculate rt "Root" x y = Ok r) /\
   (forall e, Root_by_floats rt x y = Raised e ->
              isinstance e [InvalidOperation; ValueError; ArithmeticError] = true ->
              Calculation.calculate rt "Root" x y
                = Raised (mkExc OperationError
                            ("Calculation failed: " ++ exc_str e)%string))) /\
  Calculation.calculate rt "Root" (Decimal.of_Z (-4)) (Decimal.of_Z 2)
    = Raised (mkExc OperationError "Cannot calculate root of negative number").
Proof.
  intros Nx Sy.
  assert (R : Calculation.calculate rt "Root" x y = Root_in_words rt x y).
  { rewrite calculate_Root.
    unfold Root_in_words, Root_by_floats, Calculation._raise_invalid_root.
    unfold Decimal.ne.
    rewrite (ge_number x Decimal.zero Nx eq_refl),
            (lt_number x Decimal.zero Nx eq_refl),
            (eq_not_signaling y Decimal.zero Sy eq_refl).
    destruct (Decimal.cmp x Decimal.zero);
      destruct (Decimal.is_nan y || Decimal.is_nan Decimal.zero);
      destruct (Decimal.cmp y Decimal.zero); reflexivity. }
  split; [exact R|]. rewrite R. unfold Root_in_words.
  split; [|split; [|split]].
  - intros ->. reflexivity.
  - intros -> ->. reflexivity.
  - intros -> ->. cbn [Py.bind]. unfold wrap_failure. split.
    + intros r ->. reflexivity.
    + intros e -> C. cbn [try_except]. rewrite C. reflexivity.
  - reflexivity.
Qed.

Lemma root_policy_witness :
  Calculation.calculate Fixtures.runtime "Root" (Fixtures.D "-8") (Fixtures.D "3")
    = Raised (mkExc OperationError "Cannot calculate root of negative number") /\
  Calculation.calculate Fixtures.runtime "Root" (Fixtures.D "-8") (Fixtures.D "0.0")
    = Raised (mkExc OperationError "Zero root is undefined").
Proof.
  split.
  - apply (proj1 (proj2 (proj2 (root_policy Fixtures.runtime (Fixtures.D "-8")
                                  (Fixtures.D "3") eq_refl eq_refl))));
      reflexivity.
  - apply (proj1 (proj2 (root_policy Fixtures.runtime (Fixtures.D "-8")
                           (Fixtures.D "0.0") eq_refl eq_refl)));
      reflexivity.
Defined.

(** C7, as the claim words it, fails at three places.  With x a NaN and
    y == 0, and with x negative and y a signaling NaN, a comparison of the
    operation raises [InvalidOperation] and the failure carries neither of
    the two messages.  With x = 1E+200 and y = 0.5, where x is not negative
    and y is not zero, nothing is returned: [pow(1e200, 2.0)] raises
    [OverflowError], as the [pow] of this runtime does. *)
Lemma root_beyond_the_two_messages :
  (Decimal.eq (Fixtures.D "0") Decimal.zero = Ok true /\
   Calculation.calculate Fixtures.runtime "Root" (Fixtures.D "NaN") (Fixtures.D "0")
     = Raised (mkExc OperationError
                 "Calculation failed: [<class 'decimal.InvalidOperation'>]")) /\
  (Decimal.lt (Fixtures.D "-4") Decimal.zero = Ok true /\
   Calculation.calculate Fixtures.runtime "Root" (Fixtures.D "-4") (Fixtures.D "sNaN")
     = Raised (mkExc OperationError
                 "Calculation failed: [<class 'decimal.InvalidOperation'>]")) /\
  (Decimal.lt (Fixtures.D "1E+200") Decimal.zero = Ok false /\
   Decimal.eq (Fixtures.D "0.5") Decimal.zero = Ok false /\
   Calculation.calculate Fixtures.runtime "Root" (Fixtures.D "1E+200") (Fixtures.D "0.5")
     = Raised (mkExc OperationError
                 "Calculation failed: (34, 'Numerical result out of range')")).
Proof. repeat split; reflexivity. Qed.

(** ** Numbers and their digits *)

Section Digits.

Local Open Scope N_scope.

Lemma digit_cases d :
  d < 10 ->
  d = 0 \/ d = 1 \/ d = 2 \/ d = 3 \/ d = 4 \/ d = 5 \/ d = 6 \/ d = 7 \/
  d = 8 \/ d = 9.
Proof. lia. Qed.

Ltac each_digit d H :=
  destruct (digit_cases d H) as [E|[E|[E|[E|[E|[E|[E|[E|[E|E]]]]]]]]];
  rewrite E; reflexivity.

Lemma is_digit_digit_char d : d < 10 -> Text.is_digit (Text.digit_char d) = true.
Proof. intros H. each_digit d H. Qed.

Lemma digit_val_digit_char d : d < 10 -> Text.digit_val (Text.digit_char d) = d.
Proof. intros H. each_digit d H. Qed.

Lemma mod10_lt n : n mod 10 < 10.
Proof. apply N.mod_lt. discriminate. Qed.

Lemma digits_fuel_all fuel : forall n acc,
  all_digits acc -> all_digits (Text.digits_fuel fuel n acc).
Proof.
  induction fuel as [|fuel IH]; intros n acc A; simpl.
  - constructor; [apply is_digit_digit_char, mod10_lt | exact A].
  - destruct (n <? 10).
    + constructor; [apply is_digit_digit_char, mod10_lt | exact A].
    + apply IH. constructor; [apply is_digit_digit_char, mod10_lt | exact A].
Qed.

Lemma digits_all n : all_digits (Text.digits n).
Proof. apply digits_fuel_all. constructor. Qed.

Lemma digits_fuel_app fuel : forall n acc,
  Text.digits_fuel fuel n acc = Text.digits_fuel fuel n [] ++ acc.
Proof.
  induction fuel as [|fuel IH]; intros n acc; simpl.
  - reflexivity.
  - destruct (n <? 10); [reflexivity|].
    rewrite IH, (IH _ [_]), <- app_assoc. reflexivity.
Qed.

Lemma fold_horner l : forall acc,
  fold_left (fun a c => 10 * a + Text.digit_val c) l acc
  = acc * 10 ^ N.of_nat (List.length l) + Text.horner l.
Proof.
  unfold Text.horner.
  induction l as [|c l IH]; intros acc.
  - simpl. lia.
  - cbn [fold_left List.length]. rewrite IH, (IH (10 * 0 + _)).
    rewrite Nnat.Nat2N.inj_succ, N.pow_succ_r'. lia.
Qed.

Lemma horner_app a b :
  Text.horner (a ++ b)
  = Text.horner a * 10 ^ N.of_nat (List.length b) + Text.horner b.
Proof. unfold Text.horner at 1. rewrite fold_left_app. apply fold_horner. Qed.

Lemma horner_cons c l :
  Text.horner (c :: l)
  = Text.digit_val c * 10 ^ N.of_nat (List.length l) + Text.horner l.
Proof. apply (horner_app [c] l). Qed.

Lemma horner_zeros k : Text.horner (Text.zeros k) = 0.
Proof.
  induction k as [|k IH]; [reflexivity|].
  unfold Text.zeros in *. cbn [repeat]. rewrite horner_cons, IH. reflexivity.
Qed.

Lemma horner_zeros_app k l : Text.horner (Text.zeros k ++ l) = Text.horner l.
Proof. rewrite horner_app, horner_zeros. lia. Qed.

Lemma horner_digits_fuel fuel : forall n,
  n < 10 ^ N.of_nat (S fuel) -> Text.horner (Text.digits_fuel fuel n []) = n.
Proof.
  assert (B : forall n, n < 10 ->
              Text.horner [Text.digit_char (n mod 10)] = n).
  { intros n H. rewrite N.mod_small by exact H.
    unfold Text.horner. simpl fold_left.
    rewrite digit_val_digit_char by exact H. lia. }
  induction fuel as [|fuel IH]; intros n H.
  - apply B. exact H.
  - cbn [Text.digits_fuel]. destruct (n <? 10) eqn:L.
    + apply B. apply N.ltb_lt. exact L.
    + apply N.ltb_ge in L.
      rewrite digits_fuel_app, horner_app, IH.
      * unfold Text.horner at 1. simpl fold_left.
        rewrite digit_val_digit_char by apply mod10_lt.
        simpl List.length. change (10 ^ N.of_nat 1) with 10.
        pose proof (N.div_mod n 10). lia.
      * rewrite Nnat.Nat2N.inj_succ, N.pow_succ_r' in H.
        apply N.Div0.div_lt_upper_bound. exact H.
Qed.

Lemma log2_bound n : n < 10 ^ N.of_nat (S (N.to_nat (N.log2 n))).
Proof.
  rewrite Nnat.Nat2N.inj_succ, Nnat.N2Nat.id.
  destruct (N.eq_dec n 0) as [->|Z]; [reflexivity|].
  assert (P : 0 < n) by lia.
  destruct (N.log2_spec n P) as [_ U].
  eapply N.lt_le_trans; [exact U|].
  apply N.pow_le_mono_l. lia.
Qed.

Lemma horner_digits n : Text.horner (Text.digits n) = n.
Proof. apply horner_digits_fuel, log2_bound. Qed.

Lemma digits_fuel_length fuel : forall n w,
  n < 10 ^ N.of_nat (S w) ->
  (List.length (Text.digits_fuel fuel n []) <= S w)%nat.
Proof.
  induction fuel as [|fuel IH]; intros n w H; simpl.
  - lia.
  - destruct (n <? 10) eqn:L; simpl; [lia|].
    apply N.ltb_ge in L.
    rewrite digits_fuel_app, length_app. simpl.
    destruct w as [|w].
    + change (10 ^ N.of_nat 1) with 10 in H. lia.
    + enough (List.length (Text.digits_fuel fuel (n / 10) []) <= S w)%nat by lia.
      apply IH.
      rewrite Nnat.Nat2N.inj_succ, N.pow_succ_r' in H.
      apply N.Div0.div_lt_upper_bound. exact H.
Qed.

Lemma digits_length n w :
  n < 10 ^ N.of_nat (S w) -> (List.length (Text.digits n) <= S w)%nat.
Proof. apply digits_fuel_length. Qed.

Lemma digits_fuel_cons fuel : forall n acc,
  exists c l, Text.digits_fuel fuel n acc = c :: l /\ Text.is_digit c = true.
Proof.
  induction fuel as [|fuel IH]; intros n acc; simpl.
  - eexists. eexists. split; [reflexivity|apply is_digit_digit_char, mod10_lt].
  - destruct (n <? 10); [|apply IH].
    eexists. eexists. split; [reflexivity|apply is_digit_digit_char, mod10_lt].
Qed.

Lemma digits_cons n :
  exists c l, Text.digits n = c :: l /\ Text.is_digit c = true.
Proof. apply digits_fuel_cons. Qed.

Lemma span_digits ds rest :
  all_digits ds -> stops rest ->
  Text.span Text.is_digit (ds ++ rest) = (ds, rest).
Proof.
  intros A S. induction A as [|c ds Hc A IH]; cbn [app Text.span].
  - destruct rest as [|c r]; [reflexivity|]. cbn [Text.span].
    unfold stops in S. rewrite S. reflexivity.
  - rewrite Hc, IH. reflexivity.
Qed.

Lemma span_digits_all ds :
  all_digits ds -> Text.span Text.is_digit ds = (ds, []).
Proof.
  intros A. rewrite <- (app_nil_r ds) at 1. apply span_digits; [exact A|exact I].
Qed.

Lemma zeros_all k : all_digits (Text.zeros k).
Proof. induction k; constructor; [reflexivity|assumption]. Qed.

End Digits.

(** ** [Decimal(str(d))] is [d] *)

Section DecimalText.

Lemma digit_plain c : Text.is_digit c = true -> plain c.
Proof.
  destruct c as [[] [] [] [] [] [] [] []]; intros H;
    try discriminate H; split; reflexivity.
Qed.

Lemma digit_no_sign c r :
  Text.is_digit c = true -> Decimal.split_sign (c :: r) = (false, c :: r).
Proof.
  destruct c as [[] [] [] [] [] [] [] []]; intros H;
    try discriminate H; reflexivity.
Qed.

Lemma all_digits_plain l : all_digits l -> Forall plain l.
Proof. intros A. eapply Forall_impl; [|exact A]. exact digit_plain. Qed.

Lemma lstrip_plain l : Forall plain l -> Decimal.lstrip l = l.
Proof.
  destruct l as [|c r]; [reflexivity|].
  intros F. inversion F as [|? ? [S _] _]. simpl. rewrite S. reflexivity.
Qed.

Lemma clean_plain l : Forall plain l -> Decimal.clean l = l.
Proof.
  intros F. unfold Decimal.clean.
  rewrite (lstrip_plain l F), (lstrip_plain (rev l)) by (apply Forall_rev; exact F).
  rewrite rev_involutive.
  induction F as [|c r [_ U] F IH]; [reflexivity|].
  simpl. rewrite U. simpl. rewrite IH. reflexivity.
Qed.

Lemma signed_plain z : Forall plain (Text.signed z).
Proof.
  unfold Text.signed. constructor.
  - destruct (z <? 0)%Z; split; reflexivity.
  - apply all_digits_plain, digits_all.
Qed.

Lemma parse_exponent_signed z : Decimal.parse_exponent (Text.signed z) = Some z.
Proof.
  unfold Decimal.parse_exponent, Text.signed.
  destruct (digits_cons (Z.abs_N z)) as (c & l & E & _).
  destruct (Z.ltb_spec z 0) as [L|L]; unfold Decimal.split_sign;
    simpl Ascii.eqb; cbv iota;
    rewrite (span_digits_all _ (digits_all (Z.abs_N z))), E; cbn [Text.is_nil orb negb];
    rewrite <- E, horner_digits; f_equal; lia.
Qed.

Lemma parse_number_text ip fp dot ex :
  all_digits ip -> all_digits fp ->
  (dot = false -> fp = []) ->
  Text.is_nil ip && Text.is_nil fp = false ->
  Decimal.parse_number (number_text ip fp dot ex)
  = Some (Text.horner (ip ++ fp),
          (match ex with Some z => z | None => 0 end
           - Z.of_nat (List.length fp))%Z).
Proof.
  intros Ai Af D NE. unfold Decimal.parse_number, number_text.
  assert (Sx : stops match ex with
                     | Some z => "E"%char :: Text.signed z
                     | None => []
                     end) by (destruct ex; [reflexivity|exact I]).
  destruct dot.
  - rewrite (span_digits ip) by (trivial; reflexivity).
    cbn [app]. cbv beta iota.
    rewrite (span_digits fp) by trivial. cbv beta iota. rewrite NE.
    destruct ex as [z|].
    + change (Decimal.is_E "E"%char) with true. cbv iota.
      rewrite parse_exponent_signed. reflexivity.
    + reflexivity.
  - rewrite (D eq_refl) in *. cbn [app].
    rewrite (span_digits ip) by trivial. cbv beta iota.
    destruct ex as [z|].
    + rewrite NE. change (Decimal.is_E "E"%char) with true. cbv iota.
      rewrite parse_exponent_signed. reflexivity.
    + rewrite NE. reflexivity.
Qed.

Lemma number_text_plain ip fp dot ex :
  all_digits ip -> all_digits fp -> Forall plain (number_text ip fp dot ex).
Proof.
  intros Ai Af. unfold number_text.
  apply Forall_app. split; [apply all_digits_plain, Ai|].
  apply Forall_app. split.
  - destruct dot; constructor; [split; reflexivity|apply all_digits_plain, Af].
  - destruct ex; constructor; [split; reflexivity|apply signed_plain].
Qed.

Lemma number_text_no_sign ip fp dot ex :
  all_digits ip -> ip <> [] ->
  Decimal.split_sign (number_text ip fp dot ex)
  = (false, number_text ip fp dot ex).
Proof.
  intros Ai N. destruct ip as [|c r]; [contradiction|].
  inversion Ai; subst. unfold number_text. cbn [app].
  apply digit_no_sign. assumption.
Qed.

(** What [finite_chars] writes, as parts: in each case the integer part is
    not empty and the parts hold the coefficient and the exponent. *)
Lemma finite_chars_parts c e :
  exists ip fp dot ex,
    Decimal.finite_chars c e = number_text ip fp dot ex /\
    all_digits ip /\ all_digits fp /\ ip <> [] /\
    (dot = false -> fp = []) /\
    Text.horner (ip ++ fp) = c /\
    (match ex with Some z => z | None => 0 end - Z.of_nat (List.length fp))%Z = e.
Proof.
  unfold Decimal.finite_chars.
  pose proof (digits_all c) as A.
  pose proof (horner_digits c) as H.
  destruct (digits_cons c) as (d0 & dl & E & D0).
  set (ds := Text.digits c) in *.
  assert (L : (1 <= Z.of_nat (List.length ds))%Z) by (rewrite E; simpl; lia).
  set (len := Z.of_nat (List.length ds)) in *.
  assert (Fs : forall k, all_digits (firstn k ds) /\ all_digits (skipn k ds)).
  { intros k. apply Forall_app. rewrite firstn_skipn. exact A. }
  destruct ((e <=? 0)%Z && (e + len >? -6)%Z)%bool eqn:C.
  - apply andb_prop in C. destruct C as [C1 C2].
    apply Z.leb_le in C1. rewrite Z.eqb_refl.
    destruct (Z.leb_spec (e + len) 0) as [P|P].
    + exists ["0"%char], (Text.zeros (Z.to_nat (- (e + len))) ++ ds), true, None.
      refine (conj _ (conj _ (conj _ (conj _ (conj _ (conj _ _)))))).
      * unfold number_text. cbn [app]. rewrite app_nil_r. reflexivity.
      * constructor; [reflexivity|constructor].
      * apply Forall_app. split; [apply zeros_all|exact A].
      * discriminate.
      * discriminate.
      * cbn [app]. rewrite horner_cons, horner_zeros_app, H. reflexivity.
      * rewrite length_app. unfold Text.zeros. rewrite repeat_length.
        fold len. lia.
    + destruct (Z.geb_spec (e + len) len) as [Q|Q].
      * assert (e = 0%Z) by lia. subst e.
        exists ds, [], false, None.
        refine (conj _ (conj _ (conj _ (conj _ (conj _ (conj _ _)))))).
        -- unfold number_text. cbn [app]. rewrite app_nil_r.
           replace (Z.to_nat (0 + len - len)) with 0%nat by lia.
           cbn [Text.zeros repeat]. rewrite !app_nil_r. reflexivity.
        -- exact A.
        -- constructor.
        -- rewrite E. discriminate.
        -- reflexivity.
        -- rewrite app_nil_r. exact H.
        -- reflexivity.
      * exists (firstn (Z.to_nat (e + len)) ds), (skipn (Z.to_nat (e + len)) ds),
          true, None.
        refine (conj _ (conj _ (conj _ (conj _ (conj _ (conj _ _)))))).
        -- unfold number_text. cbn [app]. rewrite !app_nil_r. reflexivity.
        -- apply Fs.
        -- apply Fs.
        -- rewrite E.
           replace (Z.to_nat (e + len)) with (S (Z.to_nat (e + len - 1))) by lia.
           discriminate.
        -- discriminate.
        -- rewrite firstn_skipn. exact H.
        -- rewrite length_skipn. fold len. lia.
  - assert (N : (e + len)%Z <> 1%Z).
    { intros N. rewrite N in C.
      assert (B : (e <=? 0)%Z = true) by (apply Z.leb_le; lia).
      rewrite B in C. discriminate C. }
    apply Z.eqb_neq in N. rewrite N.
    change (1 <=? 0)%Z with false. cbv iota.
    destruct (Z.geb_spec 1 len) as [Q|Q].
    + assert (len = 1%Z) by lia.
      exists ds, [], false, (Some (e + len - 1)%Z).
      refine (conj _ (conj _ (conj _ (conj _ (conj _ (conj _ _)))))).
      * unfold number_text.
        replace (Z.to_nat (1 - len)) with 0%nat by lia.
        cbn [Text.zeros repeat app]. rewrite !app_nil_r. reflexivity.
      * exact A.
      * constructor.
      * rewrite E. discriminate.
      * reflexivity.
      * rewrite app_nil_r. exact H.
      * simpl List.length. lia.
    + exists (firstn 1 ds), (skipn 1 ds), true, (Some (e + len - 1)%Z).
      refine (conj _ (conj _ (conj _ (conj _ (conj _ (conj _ _)))))).
      * unfold number_text. change (Z.to_nat 1) with 1%nat.
        rewrite <- app_assoc. cbn [app]. reflexivity.
      * apply Fs.
      * apply Fs.
      * rewrite E. discriminate.
      * discriminate.
      * rewrite firstn_skipn. exact H.
      * rewrite length_skipn. fold len. lia.
Qed.

Lemma lower_digits l : all_digits l -> map Text.lower_char l = l.
Proof.
  intros A. induction A as [|c r Hc A IH]; [reflexivity|].
  simpl. rewrite IH. f_equal.
  destruct c as [[] [] [] [] [] [] [] []]; try discriminate Hc; reflexivity.
Qed.

Lemma payload_parts p :
  exists ds, Decimal.payload_text p = ds /\ all_digits ds /\ Text.horner ds = p.
Proof.
  unfold Decimal.payload_text. destruct (N.eqb_spec p 0) as [->|N].
  - exists []. repeat split. constructor.
  - exists (Text.digits p). repeat split; [apply digits_all|apply horner_digits].
Qed.

Lemma sign_text_plain s : Forall plain (Decimal.sign_text s).
Proof. destruct s; repeat constructor. Qed.

(** Reading back what [str] wrote gives the same value: sign, coefficient,
    exponent, and the payload of a NaN. *)
Lemma parse_to_chars d : Decimal.parse_chars (Decimal.to_chars d) = Some d.
Proof.
  unfold Decimal.parse_chars.
  destruct d as [s c e|s|s p|s p]; cbn [Decimal.to_chars].
  - destruct (finite_chars_parts c e) as (ip & fp & dot & ex & -> & Ai & Af & N & D & H & X).
    rewrite clean_plain
      by (apply Forall_app; split; [apply sign_text_plain|apply number_text_plain; trivial]).
    assert (NE : Text.is_nil ip && Text.is_nil fp = false)
      by (destruct ip; [contradiction|reflexivity]).
    destruct s; cbn [Decimal.sign_text app Decimal.split_sign].
    + change (Ascii.eqb "-" "-")%char with true. cbv iota.
      rewrite parse_number_text, H, X by trivial. reflexivity.
    + rewrite number_text_no_sign by trivial.
      rewrite parse_number_text, H, X by trivial. reflexivity.
  - destruct s; reflexivity.
  - destruct (payload_parts p) as (ds & -> & A & H).
    rewrite clean_plain
      by (apply Forall_app; split; [apply sign_text_plain|];
          repeat constructor; apply all_digits_plain, A).
    destruct s; cbn; rewrite (lower_digits ds A), (span_digits_all ds A), H;
      reflexivity.
  - destruct (payload_parts p) as (ds & -> & A & H).
    rewrite clean_plain
      by (apply Forall_app; split; [apply sign_text_plain|];
          repeat constructor; apply all_digits_plain, A).
    destruct s; cbn; rewrite (lower_digits ds A), (span_digits_all ds A), H;
      reflexivity.
Qed.

Lemma chars_str l : Text.chars (Text.str l) = l.
Proof. apply list_ascii_of_string_of_list_ascii. Qed.

Lemma of_str_to_str d : Decimal.of_str (Decimal.to_str d) = Ok d.
Proof.
  unfold Decimal.of_str, Decimal.to_str. rewrite chars_str, parse_to_chars.
  reflexivity.
Qed.

End DecimalText.

(** ** [fromisoformat(isoformat(d))] is [d] *)

Section DatetimeText.

Local Open Scope N_scope.

Lemma pad_spec w n :
  n < 10 ^ N.of_nat (S w) ->
  all_digits (Text.pad (S w) n) /\
  List.length (Text.pad (S w) n) = S w /\
  Text.horner (Text.pad (S w) n) = n.
Proof.
  intros B. unfold Text.pad. cbv zeta.
  pose proof (digits_length n w B) as L.
  repeat split.
  - apply Forall_app. split; [apply zeros_all|apply digits_all].
  - rewrite length_app. unfold Text.zeros. rewrite repeat_length. lia.
  - rewrite horner_zeros_app. apply horner_digits.
Qed.

Lemma take_digits_app ds rest :
  all_digits ds ->
  Datetime.take_digits (List.length ds) (ds ++ rest) = Some (ds, rest).
Proof.
  intros A. induction A as [|c ds Hc A IH]; [reflexivity|].
  cbn [List.length app Datetime.take_digits]. rewrite Hc, IH. reflexivity.
Qed.

Lemma take_num_pad w n rest :
  n < 10 ^ N.of_nat (S w) ->
  Datetime.take_num (S w) (Text.pad (S w) n ++ rest) = Some (n, rest).
Proof.
  intros B. destruct (pad_spec w n B) as (A & L & H).
  unfold Datetime.take_num. rewrite <- L at 1.
  rewrite take_digits_app by exact A. rewrite H. reflexivity.
Qed.

Lemma take_num_pad_end w n :
  n < 10 ^ N.of_nat (S w) ->
  Datetime.take_num (S w) (Text.pad (S w) n) = Some (n, []).
Proof.
  intros B. rewrite <- (app_nil_r (Text.pad (S w) n)). apply take_num_pad, B.
Qed.

Lemma days_in_month_le y m : Datetime.days_in_month y m <= 31.
Proof.
  unfold Datetime.days_in_month.
  destruct (m =? 2); [destruct (Datetime.is_leap y); lia|].
  destruct (_ || _)%bool; lia.
Qed.

Lemma parse_isoformat d :
  Datetime.valid d = true ->
  Datetime.parse_chars (Datetime.isoformat_chars d) = Some d.
Proof.
  destruct d as [y m d h mi s us]. unfold Datetime.valid. cbn [Datetime.year
    Datetime.month Datetime.day Datetime.hour Datetime.minute Datetime.second
    Datetime.microsecond].
  intros V.
  repeat match type of V with
         | (_ && _)%bool = true =>
             let V' := fresh "V" in
             apply andb_prop in V; destruct V as [V V']
         end.
  repeat match goal with
         | H : (_ <=? _) = true |- _ => apply N.leb_le in H
         | H : (_ <? _) = true |- _ => apply N.ltb_lt in H
         end.
  pose proof (days_in_month_le y m) as DM.
  unfold Datetime.parse_chars, Datetime.isoformat_chars. cbn [Datetime.year
    Datetime.month Datetime.day Datetime.hour Datetime.minute Datetime.second
    Datetime.microsecond].
  rewrite (take_num_pad 3 y) by (change (10 ^ N.of_nat 4) with 10000; lia).
  cbv beta iota.
  rewrite (take_num_pad 1 m) by (change (10 ^ N.of_nat 2) with 100; lia).
  cbv beta iota.
  rewrite (take_num_pad 1 d) by (change (10 ^ N.of_nat 2) with 100; lia).
  cbv beta iota.
  unfold Datetime.parse_time.
  rewrite (take_num_pad 1 h) by (change (10 ^ N.of_nat 2) with 100; lia).
  cbv beta iota.
  rewrite (take_num_pad 1 mi) by (change (10 ^ N.of_nat 2) with 100; lia).
  cbv beta iota.
  rewrite (take_num_pad 1 s) by (change (10 ^ N.of_nat 2) with 100; lia).
  destruct (N.eqb_spec us 0) as [->|NZ].
  - reflexivity.
  - cbv beta iota.
    rewrite (take_num_pad_end 5 us)
      by (change (10 ^ N.of_nat 6) with 1000000; lia).
    reflexivity.
Qed.

Lemma fromisoformat_isoformat d :
  Datetime.valid d = true ->
  Datetime.fromisoformat (Datetime.isoformat d) = Ok d.
Proof.
  intros V. unfold Datetime.fromisoformat, Datetime.isoformat.
  rewrite chars_str, (parse_isoformat d V), V. reflexivity.
Qed.

End DatetimeText.

(** ** Serialization of a calculation *)

Lemma cmp_refl d : Decimal.is_nan d = false -> Decimal.cmp d d = Eq.
Proof.
  destruct d as [s c e|s|s p|s p]; intros N; try discriminate N.
  - unfold Decimal.cmp. destruct (c =? 0)%N; [reflexivity|].
    destruct s; cbn [andb negb]; rewrite Z.compare_refl, N.compare_refl;
      reflexivity.
  - destruct s; reflexivity.
Qed.

Lemma eq_refl_number d : Decimal.is_nan d = false -> Decimal.eq d d = Ok true.
Proof. intros N. rewrite (eq_number d d N N), (cmp_refl d N). reflexivity. Qed.

Lemma post_init_inv rt operation operand1 operand2 stamp c :
  Calculation.__post_init__ rt operation operand1 operand2 stamp = Ok c ->
  exists r,
    Calculation.calculate rt operation operand1 operand2 = Ok r /\
    c = Calculation.mk operation operand1 operand2 r stamp.
Proof.
  unfold Calculation.__post_init__.
  destruct (Calculation.calculate rt operation operand1 operand2) as [r|e];
    simpl; intros H; inversion H. eauto.
Qed.

(** What [from_dict] does with the dictionary of a record whose stored
    result was replaced by [saved]. *)
Lemma from_dict_stored rt now operation operand1 operand2 r stamp saved :
  Calculation.calculate rt operation operand1 operand2 = Ok r ->
  Datetime.valid stamp = true ->
  Calculation.from_dict rt now
    (setitem (Calculation.to_dict (Calculation.mk operation operand1 operand2 r stamp))
       "result" (Decimal.to_str saved))
  = try_except
      (differs <- Decimal.ne r saved ;;
       Ok (Calculation.mk operation operand1 operand2 r stamp,
           if differs : bool then
             [("WARNING",
               ("Loaded calculation result " ++ Decimal.to_str saved ++
                " differs from computed result " ++ Decimal.to_str r)%string)]
           else []))
      [KeyError; InvalidOperation; ValueError]
      (fun e => raise OperationError
                  ("Invalid calculation data: " ++ exc_str e)%string).
Proof.
  intros C V. unfold Calculation.from_dict, Calculation.to_dict.
  cbn [setitem String.eqb Ascii.eqb Bool.eqb Calculation.operation
       Calculation.operand1 Calculation.operand2 Calculation.result
       Calculation.timestamp].
  unfold getitem, get. cbn [String.eqb Ascii.eqb Bool.eqb Py.bind].
  rewrite (of_str_to_str operand1). cbn [Py.bind].
  rewrite (of_str_to_str operand2). cbn [Py.bind].
  unfold Calculation.__post_init__. rewrite C. cbn [Py.bind].
  rewrite (fromisoformat_isoformat stamp V). cbn [Py.bind].
  rewrite (of_str_to_str saved). cbn [Py.bind Calculation.operation
       Calculation.operand1 Calculation.operand2 Calculation.result].
  reflexivity.
Qed.

Lemma setitem_same_result c :
  setitem (Calculation.to_dict c) "result" (Decimal.to_str (Calculation.result c))
  = Calculation.to_dict c.
Proof. reflexivity. Qed.

(** C4, as the code has it.  Take a record built by the constructor, with a
    valid timestamp, whose operands and result are numbers (not NaN).
    Reading its dictionary back gives the record itself: equal under
    [__eq__], with the result computed again from the operands and the
    stored timestamp in place of the clock's reading, and nothing is
    logged.  When the stored result differs from the computed one,
    [from_dict] still returns the record, and logs one warning. *)
Theorem serialization_round_trip
    (rt : Runtime) (operation : string) (operand1 operand2 : Decimal.t)
    (stamp now : Datetime.t) (c : Calculation.t) :
  Calculation.__post_init__ rt operation operand1 operand2 stamp = Ok c ->
  Datetime.valid stamp = true ->
  Decimal.is_nan operand1 = false ->
  Decimal.is_nan operand2 = false ->
  Decimal.is_nan (Calculation.result c) = false ->
  (exists d,
      Calculation.from_dict rt now (Calculation.to_dict c) = Ok (d, []) /\
      Calculation.__eq__ d c = Ok true /\
      Calculation.calculate rt (Calculation.operation d)
        (Calculation.operand1 d) (Calculation.operand2 d)
        = Ok (Calculation.result d) /\
      Calculation.result d = Calculation.result c /\
      Calculation.timestamp d = stamp /\
      d = c) /\
  (forall saved,
      Decimal.ne (Calculation.result c) saved = Ok true ->
      Calculation.from_dict rt now
        (setitem (Calculation.to_dict c) "result" (Decimal.to_str saved))
      = Ok (c, [("WARNING",
                 ("Loaded calculation result " ++ Decimal.to_str saved ++
                  " differs from computed result " ++
                  Decimal.to_str (Calculation.result c))%string)])).
Proof.
  intros H V N1 N2 Nr.
  destruct (post_init_inv _ _ _ _ _ _ H) as (r & C & ->).
  cbn [Calculation.result] in Nr.
  split.
  - exists (Calculation.mk operation operand1 operand2 r stamp).
    rewrite <- setitem_same_result.
    cbn [Calculation.result].
    rewrite (from_dict_stored rt now operation operand1 operand2 r stamp r C V).
    unfold Decimal.ne. rewrite (eq_refl_number r Nr).
    unfold Calculation.__eq__.
    cbn [Calculation.operation Calculation.operand1 Calculation.operand2
         Calculation.result Calculation.timestamp].
    rewrite String.eqb_refl, (eq_refl_number _ N1), (eq_refl_number _ N2),
      (eq_refl_number _ Nr).
    repeat split; trivial.
  - intros saved D. cbn [Calculation.result] in *.
    rewrite (from_dict_stored rt now operation operand1 operand2 r stamp saved C V).
    rewrite D. reflexivity.
Qed.

Lemma serialization_round_trip_witness :
  (exists d,
      Calculation.from_dict Fixtures.runtime (Datetime.mk 2024 2 29 23 59 59 250)
        (Calculation.to_dict Fixtures.c3) = Ok (d, []) /\
      Calculation.__eq__ d Fixtures.c3 = Ok true /\
      Calculation.calculate Fixtures.runtime (Calculation.operation d)
        (Calculation.operand1 d) (Calculation.operand2 d)
        = Ok (Calculation.result d) /\
      Calculation.result d = Calculation.result Fixtures.c3 /\
      Calculation.timestamp d = Fixtures.noon /\
      d = Fixtures.c3) /\
  (forall saved,
      Decimal.ne (Calculation.result Fixtures.c3) saved = Ok true ->
      Calculation.from_dict Fixtures.runtime (Datetime.mk 2024 2 29 23 59 59 250)
        (setitem (Calculation.to_dict Fixtures.c3) "result" (Decimal.to_str saved))
      = Ok (Fixtures.c3,
            [("WARNING",
              ("Loaded calculation result " ++ Decimal.to_str saved ++
               " differs from computed result " ++
               Decimal.to_str (Calculation.result Fixtures.c3))%string)])).
Proof.
  apply (serialization_round_trip Fixtures.runtime "Addition"
           (Fixtures.D "10") (Fixtures.D "0.5")
           Fixtures.noon (Datetime.mk 2024 2 29 23 59 59 250) Fixtures.c3);
    reflexivity.
Defined.

(** C4, as the claim words it, fails.  The constructor accepts a NaN
    operand; the record read back from the dictionary of that record is not
    equal to it under [__eq__], and a warning is logged. *)
Lemma nan_record_not_equal_after_round_trip :
  let c := Calculation.mk "Addition" (Decimal.NaN false 0) (Fixtures.D "1")
             (Decimal.NaN false 0) Fixtures.noon in
  Calculation.__post_init__ Fixtures.runtime "Addition" (Decimal.NaN false 0)
    (Fixtures.D "1") Fixtures.noon = Ok c /\
  Calculation.to_dict c
    = [ ("operation", "Addition"); ("operand1", "NaN"); ("operand2", "1");
        ("result", "NaN"); ("timestamp", "2025-10-06T12:00:00") ] /\
  Calculation.from_dict Fixtures.runtime Fixtures.noon (Calculation.to_dict c)
    = Ok (c, [("WARNING",
               "Loaded calculation result NaN differs from computed result NaN")]) /\
  Calculation.__eq__ c c = Ok false.
Proof. repeat split; reflexivity. Qed.

(** * Further properties of the code *)

(** ** Undo and redo on any calculator *)

Lemma pop_inv {A : Type} (l r : list A) (x : A) :
  Calculator.pop l = Some (x, r) -> l = r ++ [x].
Proof.
  revert r x. induction l as [|y l IH]; simpl; intros r x H; [discriminate|].
  destruct (Calculator.pop l) as [[z l']|] eqn:E.
  - inversion H; subst. rewrite (IH _ _ eq_refl). reflexivity.
  - inversion H; subst. rewrite (pop_nil_inv l E). reflexivity.
Qed.

Lemma memento_eta (m : CalculatorMemento) : mkMemento (memento_history m) = m.
Proof. destruct m; reflexivity. Qed.

(** X1.  On any calculator, a [redo()] after an [undo()] that returned true
    returns true and gives back the calculator as it was, and an [undo()]
    after a [redo()] that returned true does the same. *)
Theorem undo_redo_inverse (self self' : Calculator.t) :
  (Calculator.undo self = (true, self') -> Calculator.redo self' = (true, self)) /\
  (Calculator.redo self = (true, self') -> Calculator.undo self' = (true, self)).
Proof.
  destruct self as [cfg h s o u r]. split.
  - unfold Calculator.undo. simpl.
    destruct (Calculator.pop u) as [[m rest]|] eqn:E; [|discriminate].
    intros H. inversion H; subst. clear H.
    unfold Calculator.redo. simpl. rewrite pop_snoc. simpl.
    rewrite memento_eta, <- (pop_inv _ _ _ E). reflexivity.
  - unfold Calculator.redo. simpl.
    destruct (Calculator.pop r) as [[m rest]|] eqn:E; [|discriminate].
    intros H. inversion H; subst. clear H.
    unfold Calculator.undo. simpl. rewrite pop_snoc. simpl.
    rewrite memento_eta, <- (pop_inv _ _ _ E). reflexivity.
Qed.

Lemma undo_redo_inverse_witness :
  Calculator.redo (snd (Calculator.undo Fixtures.s2)) = (true, Fixtures.s2) /\
  Calculator.undo
    (snd (Calculator.redo (snd (Calculator.undo Fixtures.s2))))
  = (true, snd (Calculator.undo Fixtures.s2)).
Proof.
  split.
  - apply (proj1 (undo_redo_inverse Fixtures.s2 (snd (Calculator.undo Fixtures.s2)))).
    reflexivity.
  - apply (proj2 (undo_redo_inverse (snd (Calculator.undo Fixtures.s2))
                    (snd (Calculator.redo (snd (Calculator.undo Fixtures.s2)))))).
    reflexivity.
Defined.

(** X2.  [undo()] returns false exactly when the undo stack is empty, and
    then it changes nothing; [redo()] likewise with the redo stack. *)
Theorem undo_redo_nothing_to_do (self : Calculator.t) :
  (fst (Calculator.undo self) = false <-> Calculator.undo_stack self = []) /\
  (fst (Calculator.undo self) = false -> snd (Calculator.undo self) = self) /\
  (fst (Calculator.redo self) = false <-> Calculator.redo_stack self = []) /\
  (fst (Calculator.redo self) = false -> snd (Calculator.redo self) = self).
Proof.
  unfold Calculator.undo, Calculator.redo.
  destruct (Calculator.pop (Calculator.undo_stack self)) as [[m rest]|] eqn:U;
    destruct (Calculator.pop (Calculator.redo_stack self)) as [[m' rest']|] eqn:R;
    simpl;
    repeat match goal with
           | H : Calculator.pop _ = None |- _ => apply pop_nil_inv in H; rewrite H
           | H : Calculator.pop _ = Some _ |- _ => apply pop_inv in H; rewrite H
           end;
    repeat split; intros; trivial; try discriminate;
    try (exfalso; eapply app_cons_not_nil; symmetry; eassumption).
Qed.

Lemma undo_times_succ n : forall self,
  undo_times (S n) self =
  match undo_times n self with
  | Some s =>
      match Calculator.undo s with
      | (true, s') => Some s'
      | (false, _) => None
      end
  | None => None
  end.
Proof.
  induction n as [|n IH]; intros self.
  - simpl. destruct (Calculator.undo self) as [[|] s]; reflexivity.
  - change (undo_times (S (S n)) self) with
      (match Calculator.undo self with
       | (true, self') => undo_times (S n) self'
       | (false, _) => None
       end).
    destruct (Calculator.undo self) as [[|] s] eqn:U.
    + rewrite IH. simpl. rewrite U. reflexivity.
    + simpl. rewrite U. reflexivity.
Qed.

(** X3.  After any number of calls of [perform_operation] that all returned,
    as many calls of [undo()] all return true and bring back the history and
    the undo stack of the start, whatever was evicted on the way; the redo
    stack then holds one snapshot for each. *)
Theorem undo_all_operations
    (rt : Runtime) (inputs : list (raw * raw)) :
  forall (self : Calculator.t) (w : World) (self' : Calculator.t) (w' : World),
  perform_all rt self w inputs = Some (self', w') ->
  exists undone,
    undo_times (List.length inputs) self' = Some undone /\
    Calculator.history undone = Calculator.history self /\
    Calculator.undo_stack undone = Calculator.undo_stack self /\
    List.length (Calculator.redo_stack undone)
      = (List.length inputs + List.length (Calculator.redo_stack self'))%nat.
Proof.
  induction inputs as [|[a b] rest IH]; intros self w self' w' H.
  - simpl in H. inversion H; subst. exists self'. simpl. auto.
  - simpl in H.
    destruct (Calculator.perform_operation rt self w a b) as [[[r|e] s1] w1] eqn:P;
      [|discriminate].
    apply perform_operation_ok in P. destruct P as (strategy & c & _ & _ & ->).
    destruct (IH _ _ _ _ H) as (u1 & T & Hh & Hu & Hr).
    cbn [List.length]. rewrite undo_times_succ, T.
    unfold Calculator.undo.
    rewrite Hu, commit_undo_stack, pop_snoc. simpl.
    eexists. split; [reflexivity|]. simpl.
    repeat split. rewrite length_app, Hr. simpl. lia.
Qed.

Lemma undo_all_operations_witness :
  exists undone,
    undo_times 2 Fixtures.t2 = Some undone /\
    Calculator.history undone = Calculator.history Fixtures.t0 /\
    Calculator.undo_stack undone = Calculator.undo_stack Fixtures.t0 /\
    List.length (Calculator.redo_stack undone)
      = (2 + List.length (Calculator.redo_stack Fixtures.t2))%nat.
Proof.
  apply (undo_all_operations Fixtures.runtime
           [(RawStr "2.5", RawStr "3.5"); (RawStr "1", RawStr "2")]
           Fixtures.t0 Fixtures.world Fixtures.t2 Fixtures.world).
  reflexivity.
Defined.

(** ** The bound on the history, kept and lost *)

(** X4.  When the history and every snapshot fit [max_history_size], they
    still do after [perform_operation], whether it returns or raises, after
    [undo()], after [redo()] and after [clear_history()]. *)
Theorem engine_keeps_bound
    (rt : Runtime) (self : Calculator.t) (w : World) (a b : raw) :
  bounded self ->
  bounded (snd (fst (Calculator.perform_operation rt self w a b))) /\
  bounded (snd (Calculator.undo self)) /\
  bounded (snd (Calculator.redo self)) /\
  bounded (Calculator.clear_history self).
Proof.
  intros B. split; [|split; [|split]].
  - apply perform_operation_bounded, B.
  - apply undo_bounded, B.
  - apply redo_bounded, B.
  - apply clear_history_bounded. destruct B as [Hh _]. lia.
Qed.

Lemma engine_keeps_bound_witness :
  bounded (snd (fst (Calculator.perform_operation Fixtures.runtime Fixtures.t1
                       Fixtures.world (RawStr "1") (RawStr "2")))) /\
  bounded (snd (Calculator.undo Fixtures.t1)) /\
  bounded (snd (Calculator.redo Fixtures.t1)) /\
  bounded (Calculator.clear_history Fixtures.t1).
Proof.
  apply (engine_keeps_bound Fixtures.runtime Fixtures.t1 Fixtures.world).
  unfold bounded. cbn. split; [lia|]. split; repeat constructor. cbn. lia.
Defined.

Lemma length_tl_snoc {A : Type} (l : list A) (x : A) :
  List.length (tl (l ++ [x])) = List.length l.
Proof.
  destruct l as [|y l]; simpl; [reflexivity|]. rewrite length_app. simpl. lia.
Qed.

(** X5.  [perform_operation] evicts one record at most.  On a history
    that is already longer than [max_history_size] (as [load_history] can
    leave it) a call that returns keeps the length as it was: the history
    stays too long. *)
Theorem overfull_history_stays_overfull
    (rt : Runtime) (self : Calculator.t) (w : World) (a b : raw)
    (r : Decimal.t) (self' : Calculator.t) (w' : World) :
  (Z.of_nat (List.length (Calculator.history self))
     > max_history_size (Calculator.config self))%Z ->
  Calculator.perform_operation rt self w a b = (Ok r, self', w') ->
  List.length (Calculator.history self') = List.length (Calculator.history self) /\
  (Z.of_nat (List.length (Calculator.history self'))
     > max_history_size (Calculator.config self'))%Z.
Proof.
  intros O H. apply perform_operation_ok in H.
  destruct H as (strategy & c & _ & _ & ->).
  rewrite commit_config, commit_history.
  replace (_ >? _)%Z with true.
  - rewrite length_tl_snoc. split; [reflexivity|exact O].
  - symmetry. apply Z.gtb_lt. rewrite length_app. simpl. lia.
Qed.

(** ** [clear_history] *)

(** X6.  After [clear_history()] the history is empty and nothing can bring
    the cleared records back: [undo()] and [redo()] return false and change
    nothing.  The configuration, the operation and the observers stay. *)
Theorem clear_history_is_final (self : Calculator.t) :
  let cleared := Calculator.clear_history self in
  Calculator.history cleared = [] /\
  Calculator.undo cleared = (false, cleared) /\
  Calculator.redo cleared = (false, cleared) /\
  Calculator.show_history cleared = [] /\
  Calculator.config cleared = Calculator.config self /\
  Calculator.operation_strategy cleared = Calculator.operation_strategy self /\
  Calculator.observers cleared = Calculator.observers self.
Proof. repeat split. Qed.

(** ** [load_history] and [save_history] *)

(** The three ways a call of [load_history] ends. *)
Lemma load_history_outcome rt self w :
  Calculator.load_history rt self w = (Ok tt, self) \/
  (exists loaded,
      Calculator.load_history rt self w
        = (Ok tt, Calculator.set_history self loaded)) \/
  (exists m,
      Calculator.load_history rt self w
        = (Raised (mkExc OperationError ("Failed to load history: " ++ m)%string),
           self)).
Proof.
  unfold Calculator.load_history.
  destruct (io_error w) as [msg|]; [right; right; eexists; reflexivity|].
  destruct (history_file w) as [rows|]; [|left; reflexivity].
  destruct (unreadable w) as [msg|]; [right; right; eexists; reflexivity|].
  destruct rows as [|row rows]; [left; reflexivity|].
  destruct (Calculator.load_rows rt (clock w) (row :: rows)) as [l|e].
  - right. left. eexists. reflexivity.
  - right. right. eexists. reflexivity.
Qed.

(** X7.  [load_history] changes the history and nothing else: the stacks,
    the configuration, the operation and the observers stay, so a load
    cannot be undone.  When it raises, the exception is an [OperationError]
    whose text starts with ["Failed to load history: "] and the calculator
    is as it was.  With no file, or a file that has the header and no rows,
    it returns and the calculator is as it was; with a file that
    [read_csv] cannot read, one of zero bytes for instance, it raises, and
    the text of the failure ends with that of [read_csv]. *)
Theorem load_history_frame
    (rt : Runtime) (self : Calculator.t) (w : World)
    (r : outcome unit) (self' : Calculator.t) :
  Calculator.load_history rt self w = (r, self') ->
  Calculator.undo_stack self' = Calculator.undo_stack self /\
  Calculator.redo_stack self' = Calculator.redo_stack self /\
  Calculator.config self' = Calculator.config self /\
  Calculator.operation_strategy self' = Calculator.operation_strategy self /\
  Calculator.observers self' = Calculator.observers self /\
  (r = Ok tt \/
   (self' = self /\
    exists m, r = Raised (mkExc OperationError
                            ("Failed to load history: " ++ m)%string))) /\
  (io_error w = None ->
   history_file w = None \/ (history_file w = Some [] /\ unreadable w = None) ->
   r = Ok tt /\ self' = self) /\
  (forall msg,
      io_error w = None -> history_file w <> None -> unreadable w = Some msg ->
      r = Raised (mkExc OperationError ("Failed to load history: " ++ msg)%string) /\
      self' = self).
Proof.
  intros H. split; [|split; [|split; [|split; [|split; [|split; [|split]]]]]].
  1-6: destruct (load_history_outcome rt self w) as [E|[(l & E)|(m & E)]];
       rewrite E in H; inversion H; subst; try reflexivity;
       try (left; reflexivity);
       try (right; split; [reflexivity|exists m; reflexivity]).
  - unfold Calculator.load_history in H.
    intros E [F|[F U]]; rewrite E, F in H; [|rewrite U in H];
      inversion H; auto.
  - unfold Calculator.load_history in H.
    intros msg E F U. rewrite E, U in H.
    destruct (history_file w); [|contradiction].
    inversion H; auto.
Qed.

Lemma load_history_frame_witness :
  let self' :=
    snd (Calculator.load_history Fixtures.runtime Fixtures.s2
           (mkWorld (Some Fixtures.three_rows) None Fixtures.noon)) in
  Calculator.undo_stack self' = Calculator.undo_stack Fixtures.s2 /\
  Calculator.redo_stack self' = Calculator.redo_stack Fixtures.s2.
Proof.
  destruct (load_history_frame Fixtures.runtime Fixtures.s2
              (mkWorld (Some Fixtures.three_rows) None Fixtures.noon)
              (fst (Calculator.load_history Fixtures.runtime Fixtures.s2
                      (mkWorld (Some Fixtures.three_rows) None Fixtures.noon)))
              (snd (Calculator.load_history Fixtures.runtime Fixtures.s2
                      (mkWorld (Some Fixtures.three_rows) None Fixtures.noon)))
              (surjective_pairing _)) as (U & R & _).
  split; [exact U|exact R].
Defined.

Lemma eq_not_snan a b :
  Decimal.is_snan a = false -> Decimal.is_snan b = false ->
  exists r, Decimal.eq a b = Ok r.
Proof.
  unfold Decimal.eq.
  destruct a, b; simpl; intros Sa Sb; try discriminate; eauto.
Qed.

(** X8.  Reading back the dictionary of a record gives the record itself,
    field by field: the operands and the result come back with the same
    sign, digits and exponent, not only as equal numbers, and the timestamp
    to the microsecond; this holds for NaN operands too, where [__eq__]
    answers false.  The row that [save_history] builds for a record is that
    same dictionary.  Nothing is logged when the result is a number. *)
Theorem from_dict_to_dict_exact
    (rt : Runtime) (now : Datetime.t) (c : Calculation.t) :
  loadable rt c ->
  Calculator.row_of c = Calculation.to_dict c /\
  exists log,
    Calculation.from_dict rt now (Calculation.to_dict c) = Ok (c, log) /\
    (Decimal.is_nan (Calculation.result c) = false -> log = []).
Proof.
  intros L. split; [reflexivity|].
  destruct c as [op x y r stamp]. destruct L as (C & V & S). simpl in C, V, S.
  rewrite <- setitem_same_result. cbn [Calculation.result].
  rewrite (from_dict_stored rt now op x y r stamp r C V).
  unfold Decimal.ne. destruct (Decimal.is_nan r) eqn:N.
  - destruct (eq_not_snan r r S S) as [b ->]. simpl.
    eexists. split; [reflexivity|]. discriminate.
  - rewrite (eq_refl_number r N). simpl.
    eexists. split; reflexivity.
Qed.

Lemma from_dict_to_dict_exact_witness :
  let c := Calculation.mk "Addition" (Decimal.NaN false 0) (Fixtures.D "-0.50")
             (Decimal.NaN false 0) (Datetime.mk 2024 2 29 23 59 59 250) in
  Calculator.row_of c = Calculation.to_dict c /\
  exists log,
    Calculation.from_dict Fixtures.runtime Fixtures.noon (Calculation.to_dict c)
      = Ok (c, log) /\
    (Decimal.is_nan (Calculation.result c) = false -> log = []).
Proof.
  apply (from_dict_to_dict_exact Fixtures.runtime Fixtures.noon).
  repeat split.
Defined.

(** ** Observers and auto-save *)

Lemma notify_auto_save_off l self w c :
  auto_save (Calculator.config self) = false ->
  Calculator.notify l self w c = (Ok tt, w).
Proof.
  intros A. induction l as [|o l IH]; [reflexivity|].
  cbn [Calculator.notify]. unfold Calculator.update. rewrite A.
  destruct o; exact IH.
Qed.

Lemma notify_auto_save_on l self c : forall w,
  auto_save (Calculator.config self) = true ->
  io_error w = None ->
  Calculator.notify l self w c
  = (Ok tt, if existsb is_auto_save l then saved_world self w else w).
Proof.
  induction l as [|o l IH]; intros w A IO; [reflexivity|].
  cbn [Calculator.notify existsb]. unfold Calculator.update. rewrite A.
  destruct o; cbn [is_auto_save orb].
  - apply IH; assumption.
  - unfold Calculator.save_history. rewrite IO.
    fold (saved_world self w). rewrite IH by trivial.
    destruct (existsb is_auto_save l); reflexivity.
Qed.

Lemma notify_auto_save_fails l self c w msg :
  auto_save (Calculator.config self) = true ->
  io_error w = Some msg ->
  In AutoSaveObserver l ->
  Calculator.notify l self w c
  = (Raised (mkExc OperationError ("Failed to save history: " ++ msg)%string), w).
Proof.
  intros A IO. induction l as [|o l IH]; intros I; [contradiction|].
  cbn [Calculator.notify]. unfold Calculator.update. rewrite A.
  destruct o.
  - apply IH. destruct I as [D|I]; [discriminate D|exact I].
  - unfold Calculator.save_history. rewrite IO. reflexivity.
Qed.

Lemma commit_observers self c :
  Calculator.observers (Calculator.commit self c) = Calculator.observers self.
Proof. unfold Calculator.commit; simpl. destruct (_ >? _)%Z; reflexivity. Qed.

(** X9.  With [auto_save] off the observers neither fail nor write: as soon
    as the operands are valid, the operation has a result and the record is
    built, [perform_operation] returns that result with the record
    committed, and the history file and the clock are as they were. *)
Theorem perform_operation_without_auto_save
    (rt : Runtime) (self : Calculator.t) (strategy : Operation) (w : World)
    (a b : raw) (r : Decimal.t) (c : Calculation.t) :
  auto_save (Calculator.config self) = false ->
  Calculator.operation_strategy self = Some strategy ->
  Calculator.prepare rt self strategy w a b = Ok (r, c) ->
  Calculator.perform_operation rt self w a b
  = (Ok r, Calculator.commit self c, w).
Proof.
  intros A S P. unfold Calculator.perform_operation, Calculator.notify_observers.
  rewrite S, P, notify_auto_save_off by (rewrite commit_config; exact A).
  reflexivity.
Qed.

(** X10.  With [auto_save] on, an [AutoSaveObserver] registered and a
    working disk, every call of [perform_operation] that returns leaves in
    the history file the rows of the history as it now is, the new record
    included and the evicted one gone. *)
Theorem perform_operation_auto_saves
    (rt : Runtime) (self : Calculator.t) (w : World) (a b : raw)
    (r : Decimal.t) (self' : Calculator.t) (w' : World) :
  auto_save (Calculator.config self) = true ->
  In AutoSaveObserver (Calculator.observers self) ->
  io_error w = None ->
  Calculator.perform_operation rt self w a b = (Ok r, self', w') ->
  history_file w' = Some (map Calculator.row_of (Calculator.history self')) /\
  io_error w' = None /\ clock w' = clock w.
Proof.
  intros A I IO. unfold Calculator.perform_operation, Calculator.notify_observers.
  destruct (Calculator.operation_strategy self) as [strategy|]; [|discriminate].
  destruct (Calculator.prepare rt self strategy w a b) as [[r0 c]|e].
  - rewrite notify_auto_save_on, commit_observers
      by (trivial; rewrite commit_config; exact A).
    replace (existsb is_auto_save (Calculator.observers self)) with true.
    + simpl. intros H. inversion H; subst. repeat split.
    + symmetry. apply existsb_exists. exists AutoSaveObserver. auto.
  - destruct (normalize_raised (A := Decimal.t) e) as [e' ->]. discriminate.
Qed.

(** X11.  When the save of an [AutoSaveObserver] fails, [perform_operation]
    raises [OperationError] with the text ["Operation failed: Failed to save
    history: "] and the disk's message, although the record is committed:
    the history and the undo stack have changed and the redo stack is
    empty. *)
Theorem failed_auto_save_after_commit
    (rt : Runtime) (self : Calculator.t) (strategy : Operation) (w : World)
    (a b : raw) (r : Decimal.t) (c : Calculation.t) (msg : string) :
  auto_save (Calculator.config self) = true ->
  In AutoSaveObserver (Calculator.observers self) ->
  io_error w = Some msg ->
  Calculator.operation_strategy self = Some strategy ->
  Calculator.prepare rt self strategy w a b = Ok (r, c) ->
  Calculator.perform_operation rt self w a b
  = (Raised (mkExc OperationError
               ("Operation failed: Failed to save history: " ++ msg)%string),
     Calculator.commit self c, w) /\
  Calculator.undo_stack (Calculator.commit self c)
  = Calculator.undo_stack self ++ [mkMemento (Calculator.history self)] /\
  Calculator.redo_stack (Calculator.commit self c) = [].
Proof.
  intros A I IO S P. split; [|split].
  - unfold Calculator.perform_operation, Calculator.notify_observers.
    rewrite S, P.
    rewrite (notify_auto_save_fails _ _ c w msg);
      [reflexivity | rewrite commit_config; exact A | exact IO
      | rewrite commit_observers; exact I].
  - apply commit_undo_stack.
  - apply commit_redo_stack.
Qed.

Lemma overfull_history_stays_overfull_witness :
  List.length (Calculator.history (Calculator.commit Fixtures.overfull Fixtures.c2))
    = List.length (Calculator.history Fixtures.overfull) /\
  (Z.of_nat (List.length
               (Calculator.history (Calculator.commit Fixtures.overfull Fixtures.c2)))
     > max_history_size
         (Calculator.config (Calculator.commit Fixtures.overfull Fixtures.c2)))%Z.
Proof.
  apply (overfull_history_stays_overfull Fixtures.runtime Fixtures.overfull
           Fixtures.world (RawStr "1") (RawStr "2") (Fixtures.D "3")
           (Calculator.commit Fixtures.overfull Fixtures.c2) Fixtures.world);
    reflexivity.
Defined.

Lemma perform_operation_without_auto_save_witness :
  Calculator.perform_operation Fixtures.runtime Fixtures.s0 Fixtures.world
    (RawStr "2.5") (RawStr "3.5")
  = (Ok (Fixtures.D "6.0"), Calculator.commit Fixtures.s0 Fixtures.c1,
     Fixtures.world).
Proof.
  apply (perform_operation_without_auto_save Fixtures.runtime Fixtures.s0
           Fixtures.Addition); reflexivity.
Defined.

Lemma perform_operation_auto_saves_witness :
  history_file (saved_world (Calculator.commit Fixtures.saving Fixtures.c1)
                  Fixtures.world)
  = Some (map Calculator.row_of
            (Calculator.history (Calculator.commit Fixtures.saving Fixtures.c1))) /\
  io_error (saved_world (Calculator.commit Fixtures.saving Fixtures.c1)
              Fixtures.world) = None /\
  clock (saved_world (Calculator.commit Fixtures.saving Fixtures.c1) Fixtures.world)
  = clock Fixtures.world.
Proof.
  apply (perform_operation_auto_saves Fixtures.runtime Fixtures.saving
           Fixtures.world (RawStr "2.5") (RawStr "3.5") (Fixtures.D "6.0")).
  - reflexivity.
  - right. left. reflexivity.
  - reflexivity.
  - reflexivity.
Defined.

Lemma failed_auto_save_after_commit_witness :
  Calculator.perform_operation Fixtures.runtime Fixtures.saving
    Fixtures.full_disk (RawStr "2.5") (RawStr "3.5")
  = (Raised (mkExc OperationError
               ("Operation failed: Failed to save history: " ++ "disk full")%string),
     Calculator.commit Fixtures.saving Fixtures.c1, Fixtures.full_disk) /\
  Calculator.undo_stack (Calculator.commit Fixtures.saving Fixtures.c1)
  = Calculator.undo_stack Fixtures.saving
      ++ [mkMemento (Calculator.history Fixtures.saving)] /\
  Calculator.redo_stack (Calculator.commit Fixtures.saving Fixtures.c1) = [].
Proof.
  apply (failed_auto_save_after_commit Fixtures.runtime Fixtures.saving
           Fixtures.Addition Fixtures.full_disk (RawStr "2.5") (RawStr "3.5")
           (Fixtures.D "6.0") Fixtures.c1 "disk full").
  - reflexivity.
  - right. left. reflexivity.
  - reflexivity.
  - reflexivity.
  - reflexivity.
Defined.

(** ** What a call that returns has recorded *)

(** X12.  When [perform_operation] returns, both operands passed the
    validator, the value returned is the one the operation's [execute] gave,
    and the record committed carries the operation's name, the validated
    operands, the clock's reading and as result what
    [Calculation.calculate] computes for that name, which need not be the
    value returned.  With room for at least one record, it is the last
    record of the history. *)
Theorem perform_operation_records
    (rt : Runtime) (self : Calculator.t) (strategy : Operation) (w : World)
    (a b : raw) (r : Decimal.t) (self' : Calculator.t) (w' : World) :
  Calculator.operation_strategy self = Some strategy ->
  Calculator.perform_operation rt self w a b = (Ok r, self', w') ->
  exists va vb stored,
    validate_number rt a (Calculator.config self) = Ok va /\
    validate_number rt b (Calculator.config self) = Ok vb /\
    execute strategy va vb = Ok r /\
    Calculation.calculate rt (operation_name strategy) va vb = Ok stored /\
    self' = Calculator.commit self
              (Calculation.mk (operation_name strategy) va vb stored (clock w)) /\
    ((1 <= max_history_size (Calculator.config self))%Z ->
     exists earlier,
       Calculator.history self'
       = earlier ++ [Calculation.mk (operation_name strategy) va vb stored (clock w)]).
Proof.
  intros S H. apply perform_operation_ok in H.
  destruct H as (strategy' & c & S' & P & ->).
  rewrite S in S'. inversion S'; subst strategy'. clear S'.
  unfold Calculator.prepare in P.
  destruct (validate_number rt a (Calculator.config self)) as [va|] eqn:Va;
    [|discriminate].
  destruct (validate_number rt b (Calculator.config self)) as [vb|] eqn:Vb;
    [|discriminate].
  cbn [Py.bind] in P.
  destruct (execute strategy va vb) as [r0|] eqn:X; [|discriminate].
  cbn [Py.bind] in P. unfold Calculation.__post_init__ in P.
  destruct (Calculation.calculate rt (operation_name strategy) va vb)
    as [stored|] eqn:K; [|discriminate].
  cbn [Py.bind] in P. inversion P; subst. clear P.
  exists va, vb, stored.
  split; [reflexivity|]. split; [reflexivity|]. split; [exact X|].
  split; [exact K|]. split; [reflexivity|].
  intros M. rewrite commit_history.
  destruct (_ >? _)%Z eqn:G; [|eauto].
  destruct (Calculator.history self) as [|c0 h]; simpl in *.
  - apply Z.gtb_lt in G. lia.
  - exists h. reflexivity.
Qed.

Lemma perform_operation_records_witness :
  exists va vb stored,
    validate_number Fixtures.runtime (RawStr "1") (Calculator.config Fixtures.t1)
      = Ok va /\
    validate_number Fixtures.runtime (RawStr "2") (Calculator.config Fixtures.t1)
      = Ok vb /\
    execute Fixtures.Addition va vb = Ok (Fixtures.D "3") /\
    Calculation.calculate Fixtures.runtime (operation_name Fixtures.Addition) va vb
      = Ok stored /\
    Fixtures.t2 = Calculator.commit Fixtures.t1
              (Calculation.mk (operation_name Fixtures.Addition) va vb stored
                 (clock Fixtures.world)) /\
    ((1 <= max_history_size (Calculator.config Fixtures.t1))%Z ->
     exists earlier,
       Calculator.history Fixtures.t2
       = earlier ++ [Calculation.mk (operation_name Fixtures.Addition) va vb
                       stored (clock Fixtures.world)]).
Proof.
  apply (perform_operation_records Fixtures.runtime Fixtures.t1 Fixtures.Addition
           Fixtures.world (RawStr "1") (RawStr "2") (Fixtures.D "3")
           Fixtures.t2 Fixtures.world); reflexivity.
Defined.

(** ** A new calculator *)

(** X13.  A calculator as [__init__] leaves it has no operation, no
    observers and empty undo and redo stacks, whatever the history file
    holds: [undo()] and [redo()] return false and [perform_operation]
    raises [OperationError] with the text ["No operation set"] and changes
    nothing.  Its history is empty when there is no file, when the file has
    no rows and when loading fails. *)
Theorem new_calculator
    (rt : Runtime) (config : CalculatorConfig) (w : World) (a b : raw) :
  let self := Calculator.__init__ rt config w in
  Calculator.operation_strategy self = None /\
  Calculator.observers self = [] /\
  Calculator.undo self = (false, self) /\
  Calculator.redo self = (false, self) /\
  Calculator.perform_operation rt self w a b
    = (Raised (mkExc OperationError "No operation set"), self, w) /\
  Calculator.config self = config /\
  (history_file w = None \/ history_file w = Some [] \/
   fst (Calculator.load_history rt (Calculator.mk config [] None [] [] []) w)
     <> Ok tt ->
   Calculator.history self = []).
Proof.
  cbv zeta. unfold Calculator.__init__.
  set (blank := Calculator.mk config [] None [] [] []).
  pose proof (load_history_outcome rt blank w) as L.
  assert (Y : forall r s,
             match r : outcome unit with Ok _ => s | Raised _ => s end = s :> Calculator.t)
    by (intros [] ?; reflexivity).
  destruct L as [E|[(l & E)|(m & E)]]; rewrite E.
  - repeat split; trivial.
  - repeat split; trivial. simpl.
    intros [N|[N|N]]; [| |contradiction N; reflexivity];
      unfold Calculator.load_history in E; rewrite N in E;
      destruct (io_error w); try destruct (unreadable w); inversion E;
      reflexivity.
  - repeat split; trivial.
Qed.

(** ** [show_history] *)

(** X14.  [show_history] gives one line for each record of the history,
    oldest first, and each line is the text [str] gives for the record. *)
Theorem show_history_lines (self : Calculator.t) :
  Calculator.show_history self
    = map Calculation.__str__ (Calculator.history self) /\
  List.length (Calculator.show_history self)
    = List.length (Calculator.history self).
Proof.
  unfold Calculator.show_history. split; [|apply length_map].
  apply map_ext. intros c. reflexivity.
Qed.

(** ** [Calculation.from_dict] on a dictionary with a key missing *)

Lemma try_except_ok {A : Type} (m : outcome A) classes (msg : exception -> string)
    (v : A) :
  try_except m classes (fun e => raise OperationError (msg e)) = Ok v -> m = Ok v.
Proof.
  destruct m as [a|e]; simpl; [trivial|].
  destruct (isinstance e classes); discriminate.
Qed.

Lemma getitem_ok d key v : getitem d key = Ok v -> get d key = Some v.
Proof.
  unfold getitem. destruct (get d key); intros H; inversion H. reflexivity.
Qed.

(** A record that [from_dict] returns on a dictionary of texts: every key
    was found, the operands and the timestamp are what the texts read as,
    and the result is what [calculate] computes. *)
Lemma from_dict_returns
    (rt : Runtime) (now : Datetime.t) (data : dict)
    (c : Calculation.t) (log : list Calculation.log_record) :
  Calculation.from_dict rt now data = Ok (c, log) ->
  get data "operation" = Some (Calculation.operation c) /\
  (exists t1, get data "operand1" = Some t1 /\
              Decimal.of_str t1 = Ok (Calculation.operand1 c)) /\
  (exists t2, get data "operand2" = Some t2 /\
              Decimal.of_str t2 = Ok (Calculation.operand2 c)) /\
  Calculation.calculate rt (Calculation.operation c)
    (Calculation.operand1 c) (Calculation.operand2 c)
    = Ok (Calculation.result c) /\
  (exists ts, get data "timestamp" = Some ts /\
              Datetime.fromisoformat ts = Ok (Calculation.timestamp c)) /\
  (exists tr saved,
      get data "result" = Some tr /\ Decimal.of_str tr = Ok saved /\
      ((Decimal.ne (Calculation.result c) saved = Ok false /\ log = []) \/
       (Decimal.ne (Calculation.result c) saved = Ok true /\
        exists m, log = [("WARNING", m)]))).
Proof.
  unfold Calculation.from_dict. intros H. apply try_except_ok in H.
  destruct (getitem data "operation") as [op|] eqn:G0; [|discriminate].
  cbn [Py.bind] in H.
  destruct (getitem data "operand1") as [t1|] eqn:G1; [|discriminate].
  cbn [Py.bind] in H.
  destruct (Decimal.of_str t1) as [x|] eqn:P1; [|discriminate].
  cbn [Py.bind] in H.
  destruct (getitem data "operand2") as [t2|] eqn:G2; [|discriminate].
  cbn [Py.bind] in H.
  destruct (Decimal.of_str t2) as [y|] eqn:P2; [|discriminate].
  cbn [Py.bind] in H. unfold Calculation.__post_init__ in H.
  destruct (Calculation.calculate rt op x y) as [r|] eqn:K; [|discriminate].
  cbn [Py.bind] in H.
  destruct (getitem data "timestamp") as [ts|] eqn:G3; [|discriminate].
  cbn [Py.bind] in H.
  destruct (Datetime.fromisoformat ts) as [stamp|] eqn:P3; [|discriminate].
  cbn [Py.bind] in H.
  destruct (getitem data "result") as [tr|] eqn:G4; [|discriminate].
  cbn [Py.bind] in H.
  destruct (Decimal.of_str tr) as [saved|] eqn:P4; [|discriminate].
  cbn [Py.bind Calculation.result Calculation.operation Calculation.operand1
       Calculation.operand2] in H.
  destruct (Decimal.ne r saved) as [differs|] eqn:D; [|discriminate].
  cbn [Py.bind] in H. inversion H; subst. clear H.
  cbn [Calculation.result Calculation.operation Calculation.operand1
       Calculation.operand2 Calculation.timestamp].
  apply getitem_ok in G0, G1, G2, G3, G4.
  split; [exact G0|]. split; [eauto|]. split; [eauto|]. split; [exact K|].
  split; [eauto|]. exists tr, saved. split; [exact G4|]. split; [exact P4|].
  destruct differs; [right|left]; split; eauto.
Qed.

(** X16.  [from_dict] raises on a dictionary that lacks one of the five
    keys.  The keys are looked up in the order of the source, ["operation"]
    first and ["operand1"] second, before any value is read: when
    ["operation"] is missing, and when ["operand1"] is missing from a
    dictionary that has ["operation"], the exception is the [OperationError]
    whose text is ["Invalid calculation data: "] and the missing key in
    quotes, whatever else the dictionary holds. *)
Theorem from_dict_missing_key
    (rt : Runtime) (now : Datetime.t) (data : dict) (key : string) :
  In key ["operation"; "operand1"; "operand2"; "result"; "timestamp"] ->
  get data key = None ->
  (exists e, Calculation.from_dict rt now data = Raised e) /\
  (get data "operation" = None ->
   Calculation.from_dict rt now data
     = Raised (mkExc OperationError "Invalid calculation data: 'operation'")) /\
  (get data "operation" <> None -> get data "operand1" = None ->
   Calculation.from_dict rt now data
     = Raised (mkExc OperationError "Invalid calculation data: 'operand1'")).
Proof.
  intros I N. split; [|split].
  - destruct (Calculation.from_dict rt now data) as [[c log]|e] eqn:F; [|eauto].
    exfalso. apply from_dict_returns in F.
    destruct F as (G0 & (t1 & G1 & _) & (t2 & G2 & _) & _ & (ts & G3 & _)
                   & (tr & sv & G4 & _)).
    simpl in I.
    destruct I as [<-|[<-|[<-|[<-|[<-|[]]]]]]; congruence.
  - intros G0. unfold Calculation.from_dict, getitem. rewrite G0. reflexivity.
  - intros G0 G1. unfold Calculation.from_dict, getitem.
    destruct (get data "operation") as [op|]; [|contradiction].
    rewrite G1. reflexivity.
Qed.

Lemma from_dict_missing_key_witness :
  Calculation.from_dict Fixtures.runtime Fixtures.noon
    [("operation", "Addition"); ("operand2", "1")]
  = Raised (mkExc OperationError "Invalid calculation data: 'operand1'").
Proof.
  apply (proj2 (proj2 (from_dict_missing_key Fixtures.runtime Fixtures.noon
                         [("operation", "Addition"); ("operand2", "1")]
                         "operand1" (or_intror (or_introl eq_refl)) eq_refl)));
    [discriminate|reflexivity].
Defined.

(** ** The operations of [Calculation.calculate] *)

Lemma invalid_operation_signal {A : Type} x :
  @Decimal.invalid_operation A = Raised x -> is_signal x.
Proof. intros H. inversion H. left. reflexivity. Qed.

Lemma add_signal a b x : Decimal.add a b = Raised x -> is_signal x.
Proof.
  unfold Decimal.add.
  destruct (Decimal.check_nans a b) as [[d|e]|] eqn:N.
  - discriminate.
  - intros H. inversion H. subst. eapply check_nans_signal. exact N.
  - destruct a as [sa ca ea|sa|sa pa|sa pa], b as [sb cb eb|sb|sb pb|sb pb];
      try discriminate; try apply invalid_operation_signal.
    + destruct (_ && _)%bool; apply fix_signal.
    + destruct (Bool.eqb sa sb); [discriminate|apply invalid_operation_signal].
Qed.

Lemma sub_signal a b x : Decimal.sub a b = Raised x -> is_signal x.
Proof.
  unfold Decimal.sub.
  destruct (Decimal.check_nans a b) as [[d|e]|] eqn:N.
  - discriminate.
  - intros H. inversion H. subst. eapply check_nans_signal. exact N.
  - apply add_signal.
Qed.

Lemma mul_signal a b x : Decimal.mul a b = Raised x -> is_signal x.
Proof.
  unfold Decimal.mul.
  destruct (Decimal.check_nans a b) as [[d|e]|] eqn:N.
  - discriminate.
  - intros H. inversion H. subst. eapply check_nans_signal. exact N.
  - destruct a as [sa ca ea|sa|sa pa|sa pa], b as [sb cb eb|sb|sb pb|sb pb];
      try apply fix_signal;
      destruct (_ || _)%bool; try discriminate; apply invalid_operation_signal.
Qed.

Lemma wrap_failure_signal (m : outcome Decimal.t) e :
  (forall x, m = Raised x -> is_signal x) ->
  wrap_failure m = Raised e -> exc_type e = OperationError.
Proof.
  intros S. unfold wrap_failure. destruct m as [d|x]; simpl; [discriminate|].
  pose proof (is_signal_caught x (S x eq_refl)) as C. simpl in C. rewrite C.
  intros H. inversion H. reflexivity.
Qed.

(** X17.  For Addition, Subtraction, Multiplication and Division,
    [calculate] lets no exception of the decimal arithmetic out: when it
    raises, the exception is an [OperationError].  These four do not use
    the float library. *)
Theorem exact_operations_raise_operation_error
    (rt : Runtime) (operation : string) (x y : Decimal.t) (e : exception) :
  In operation ["Addition"; "Subtraction"; "Multiplication"; "Division"] ->
  Calculation.calculate rt operation x y = Raised e ->
  exc_type e = OperationError /\
  forall rt', Calculation.calculate rt' operation x y = Raised e.
Proof.
  intros I H. split.
  - simpl in I. destruct I as [<-|[<-|[<-|[<-|[]]]]].
    + apply (wrap_failure_signal (Decimal.add x y)); [apply add_signal|exact H].
    + apply (wrap_failure_signal (Decimal.sub x y)); [apply sub_signal|exact H].
    + apply (wrap_failure_signal (Decimal.mul x y)); [apply mul_signal|exact H].
    + rewrite calculate_Division_cases in H.
      destruct (Decimal.eq y Decimal.zero) as [[|]|];
        [| destruct (Decimal.div x y) |]; inversion H; reflexivity.
  - intros rt'. rewrite <- H.
    simpl in I. destruct I as [<-|[<-|[<-|[<-|[]]]]]; reflexivity.
Qed.

Lemma exact_operations_raise_operation_error_witness :
  exc_type (mkExc OperationError
              "Calculation failed: [<class 'decimal.InvalidOperation'>]")
    = OperationError /\
  forall rt',
    Calculation.calculate rt' "Subtraction" (Fixtures.D "Infinity")
      (Fixtures.D "Infinity")
    = Raised (mkExc OperationError
                "Calculation failed: [<class 'decimal.InvalidOperation'>]").
Proof.
  apply (exact_operations_raise_operation_error Fixtures.runtime "Subtraction"
           (Fixtures.D "Infinity") (Fixtures.D "Infinity")).
  - right. left. reflexivity.
  - reflexivity.
Defined.

Lemma calculate_Power rt x y :
  Calculation.calculate rt "Power" x y =
  wrap_failure
    (nonneg <- Decimal.ge y Decimal.zero ;;
     if nonneg : bool then
       fx <- float_of_decimal rt x ;;
       fy <- float_of_decimal rt y ;;
       v <- float_pow rt fx fy ;;
       Calculation.Decimal_of_pow rt v
     else Calculation._raise_neg_power).
Proof. reflexivity. Qed.

(** X18.  Power with an exponent that is a number: a negative exponent is
    refused with ["Negative exponents are not supported"] whatever the
    base, without any float computation; otherwise the value is
    [Decimal(pow(float(x), float(y)))], with the arithmetic failures of the
    float computation turned into [OperationError]. *)
Theorem power_policy (rt : Runtime) (x y : Decimal.t) :
  Decimal.is_nan y = false ->
  Calculation.calculate rt "Power" x y =
  match Decimal.cmp y Decimal.zero with
  | Lt => Raised (mkExc OperationError "Negative exponents are not supported")
  | _ =>
      wrap_failure
        (fx <- float_of_decimal rt x ;;
         fy <- float_of_decimal rt y ;;
         v <- float_pow rt fx fy ;;
         Calculation.Decimal_of_pow rt v)
  end.
Proof.
  intros N. rewrite calculate_Power, (ge_number y Decimal.zero N eq_refl).
  destruct (Decimal.cmp y Decimal.zero); reflexivity.
Qed.

Lemma power_policy_witness :
  Calculation.calculate Fixtures.runtime "Power" (Fixtures.D "2") (Fixtures.D "-1") =
  match Decimal.cmp (Fixtures.D "-1") Decimal.zero with
  | Lt => Raised (mkExc OperationError "Negative exponents are not supported")
  | _ =>
      wrap_failure
        (fx <- float_of_decimal Fixtures.runtime (Fixtures.D "2") ;;
         fy <- float_of_decimal Fixtures.runtime (Fixtures.D "-1") ;;
         v <- float_pow Fixtures.runtime fx fy ;;
         Calculation.Decimal_of_pow Fixtures.runtime v)
  end.
Proof.
  apply (power_policy Fixtures.runtime (Fixtures.D "2") (Fixtures.D "-1")).
  reflexivity.
Defined.

(** ** Equality of records *)

Lemma cmp_opp a b : Decimal.cmp b a = CompOpp (Decimal.cmp a b).
Proof.
  destruct a as [sa ca ea|sa|sa pa|sa pa], b as [sb cb eb|sb|sb pb|sb pb];
    try (cbn [Decimal.cmp]; rewrite Z.compare_antisym; reflexivity).
  cbn [Decimal.cmp].
  destruct (ca =? 0)%N, (cb =? 0)%N; try reflexivity;
    try (destruct sa; reflexivity); try (destruct sb; reflexivity).
  destruct sa, sb; cbn [andb negb]; try reflexivity;
    rewrite (Z.compare_antisym (ea + Decimal.ndigits ca - 1));
    destruct (_ ?= _)%Z; cbn [CompOpp]; try reflexivity;
    rewrite (N.compare_antisym (ca * 10 ^ Z.to_N (ea - eb)));
    destruct (_ ?= _)%N; reflexivity.
Qed.

Lemma decimal_eq_sym a b : Decimal.eq a b = Decimal.eq b a.
Proof.
  destruct (Decimal.is_nan a) eqn:Na; destruct (Decimal.is_nan b) eqn:Nb.
  - destruct a, b; try discriminate; reflexivity.
  - destruct a, b; try discriminate; reflexivity.
  - destruct a, b; try discriminate; reflexivity.
  - rewrite (eq_number a b Na Nb), (eq_number b a Nb Na), (cmp_opp a b).
    destruct (Decimal.cmp a b); reflexivity.
Qed.

(** X19.  [__eq__] does not look at the timestamp, and it does not depend
    on the side a record stands on: [a == b] and [b == a] give the same
    answer, or raise alike. *)
Theorem calculation_eq_symmetric (a b : Calculation.t) (stamp : Datetime.t) :
  Calculation.__eq__ a b = Calculation.__eq__ b a /\
  Calculation.__eq__
    (Calculation.mk (Calculation.operation a) (Calculation.operand1 a)
       (Calculation.operand2 a) (Calculation.result a) stamp) b
  = Calculation.__eq__ a b.
Proof.
  split; [|reflexivity].
  unfold Calculation.__eq__.
  rewrite (String.eqb_sym (Calculation.operation a)).
  rewrite (decimal_eq_sym (Calculation.operand1 a)),
          (decimal_eq_sym (Calculation.operand2 a)),
          (decimal_eq_sym (Calculation.result a)).
  reflexivity.
Qed.

(** ** The registry of the calculation factory *)

Section Registry.
Variables (Class Number : Type).

Lemma get_snoc (r : CalculationFactory.registry Class) k v key :
  get (r ++ [(k, v)]) key =
  match get r key with
  | Some x => Some x
  | None => if String.eqb k key then Some v else None
  end.
Proof.
  induction r as [|[k0 v0] r IH]; simpl.
  - reflexivity.
  - destruct (String.eqb k0 key); [reflexivity|exact IH].
Qed.

Lemma get_none_not_in (r : CalculationFactory.registry Class) key :
  get r key = None -> ~ In key (CalculationFactory.keys Class r).
Proof.
  induction r as [|[k0 v0] r IH]; simpl; intros H; [tauto|].
  destruct (String.eqb_spec k0 key) as [E|N]; [discriminate|].
  intros [D|D]; [contradiction|]. exact (IH H D).
Qed.

Lemma lower_char_idem c : Text.lower_char (Text.lower_char c) = Text.lower_char c.
Proof. destruct c as [[] [] [] [] [] [] [] []]; reflexivity. Qed.

Lemma lower_idem s : Text.lower (Text.lower s) = Text.lower s.
Proof.
  unfold Text.lower, Text.chars, Text.str.
  rewrite list_ascii_of_string_of_list_ascii, map_map.
  f_equal. apply map_ext. exact lower_char_idem.
Qed.

(** X20.  A calculation type that was registered is found again under its
    name in any letter case: [create_calculation] then returns an instance
    of the registered class holding the two numbers. *)
Theorem register_then_create
    (r r' : CalculationFactory.registry Class)
    (calculation_type asked : string) (subclass : Class) (a b : Number) :
  CalculationFactory.register_calculation Class r calculation_type subclass
    = Ok r' ->
  Text.lower asked = Text.lower calculation_type ->
  CalculationFactory.create_calculation Class Number r' asked a b
  = Ok (CalculationFactory.mkInstance Class Number subclass a b).
Proof.
  unfold CalculationFactory.register_calculation,
    CalculationFactory.create_calculation.
  intros H L. rewrite L.
  destruct (get r (Text.lower calculation_type)) eqn:G; [discriminate|].
  inversion H; subst. rewrite get_snoc, G, String.eqb_refl. reflexivity.
Qed.

(** X21.  Registration never replaces anything: whatever
    [create_calculation] returned before a registration it returns after
    it. *)
Theorem register_keeps_others
    (r r' : CalculationFactory.registry Class)
    (calculation_type other : string) (subclass : Class) (a b : Number)
    (i : CalculationFactory.instance Class Number) :
  CalculationFactory.register_calculation Class r calculation_type subclass
    = Ok r' ->
  CalculationFactory.create_calculation Class Number r other a b = Ok i ->
  CalculationFactory.create_calculation Class Number r' other a b = Ok i.
Proof.
  unfold CalculationFactory.register_calculation,
    CalculationFactory.create_calculation.
  intros H C.
  destruct (get r (Text.lower calculation_type)); [discriminate|].
  inversion H; subst. rewrite get_snoc.
  destruct (get r (Text.lower other)); [exact C|discriminate].
Qed.

(** X22.  [register_calculation] refuses a name exactly when the name, in
    lower case, is a key already, and then raises [ValueError]; otherwise
    it adds that one key at the end.  So a registry keeps its keys distinct
    and in lower case. *)
Theorem register_calculation_keys
    (r : CalculationFactory.registry Class)
    (calculation_type : string) (subclass : Class) :
  well_formed_registry r ->
  match CalculationFactory.register_calculation Class r calculation_type subclass with
  | Ok r' =>
      ~ In (Text.lower calculation_type) (CalculationFactory.keys Class r) /\
      CalculationFactory.keys Class r'
        = CalculationFactory.keys Class r ++ [Text.lower calculation_type] /\
      well_formed_registry r'
  | Raised e =>
      In (Text.lower calculation_type) (CalculationFactory.keys Class r) /\
      e = mkExc ValueError
            ("Calculation type '" ++ calculation_type ++
             "' is already registered.")%string
  end.
Proof.
  intros [ND LC]. unfold CalculationFactory.register_calculation.
  destruct (get r (Text.lower calculation_type)) as [c|] eqn:G.
  - split; [|reflexivity].
    clear ND LC. induction r as [|[k0 v0] r IH]; simpl in *; [discriminate|].
    destruct (String.eqb_spec k0 (Text.lower calculation_type)) as [E|N];
      [left; exact E|right; exact (IH G)].
  - pose proof (get_none_not_in _ _ G) as NI.
    assert (K : CalculationFactory.keys Class
                  (r ++ [(Text.lower calculation_type, subclass)])
                = CalculationFactory.keys Class r ++ [Text.lower calculation_type])
      by (unfold CalculationFactory.keys; rewrite map_app; reflexivity).
    split; [exact NI|]. split; [exact K|].
    unfold well_formed_registry. rewrite K. split.
    + apply NoDup_app; [exact ND|repeat constructor; intros []|].
      intros k Ik [E|[]]. subst k. exact (NI Ik).
    + apply Forall_app. split; [exact LC|].
      constructor; [apply lower_idem|constructor].
Qed.

End Registry.

Lemma register_then_create_witness :
  CalculationFactory.create_calculation CalculationFactory.builtin_class Z
    [("add", CalculationFactory.AddCalculation);
     ("divide", CalculationFactory.DivideCalculation)] "DIVIDE" 7%Z 2%Z
  = Ok (CalculationFactory.mkInstance _ Z CalculationFactory.DivideCalculation
          7%Z 2%Z).
Proof.
  apply (register_then_create CalculationFactory.builtin_class Z
           [("add", CalculationFactory.AddCalculation)] _ "Divide" "DIVIDE");
    reflexivity.
Defined.

Lemma register_keeps_others_witness :
  CalculationFactory.create_calculation CalculationFactory.builtin_class Z
    [("add", CalculationFactory.AddCalculation);
     ("divide", CalculationFactory.DivideCalculation)] "Add" 7%Z 2%Z
  = Ok (CalculationFactory.mkInstance _ Z CalculationFactory.AddCalculation
          7%Z 2%Z).
Proof.
  apply (register_keeps_others CalculationFactory.builtin_class Z
           [("add", CalculationFactory.AddCalculation)] _ "Divide" "Add"
           CalculationFactory.DivideCalculation);
    reflexivity.
Defined.

Lemma registered_at_import_well_formed :
  well_formed_registry CalculationFactory.registered_at_import.
Proof.
  split.
  - repeat constructor; simpl; intuition discriminate.
  - repeat constructor.
Qed.

Lemma register_calculation_keys_witness :
  In (Text.lower "ADD")
    (CalculationFactory.keys _ CalculationFactory.registered_at_import) /\
  mkExc ValueError "Calculation type 'ADD' is already registered."
  = mkExc ValueError
      ("Calculation type '" ++ "ADD" ++ "' is already registered.")%string.
Proof.
  exact (register_calculation_keys CalculationFactory.builtin_class
           CalculationFactory.registered_at_import "ADD"
           CalculationFactory.AddCalculation registered_at_import_well_formed).
Defined.

(** ** The calculations of the first calculator *)

(** X23.  [execute] of a calculation raises only for a division whose
    divisor equals zero, and then [ZeroDivisionError] with the text
    ["Cannot divide by zero."]: the [ValueError] that [Operation.division]
    raises for such a divisor is never reached through a
    [DivideCalculation].  With any other divisor the division returns the
    quotient, and the other three classes always return. *)
Theorem execute_failures
    (fl : FloatArith) (self : CalculationFactory.instance
                                CalculationFactory.builtin_class (fnum fl)) :
  let divisor_is_zero :=
    fis_zero fl (CalculationFactory.b _ _ self) in
  let is_division :=
    match CalculationFactory.class_of _ _ self with
    | CalculationFactory.DivideCalculation => true
    | _ => false
    end in
  (is_division && divisor_is_zero = true ->
   CalculationFactory.execute fl self
   = Raised (mkExc ZeroDivisionError "Cannot divide by zero.")) /\
  (is_division && divisor_is_zero = false ->
   exists v, CalculationFactory.execute fl self = Ok v) /\
  (is_division = true -> divisor_is_zero = false ->
   CalculationFactory.execute fl self
   = Ok (fdiv fl (CalculationFactory.a _ _ self) (CalculationFactory.b _ _ self))) /\
  (BasicOperation.division fl (CalculationFactory.a _ _ self)
     (CalculationFactory.b _ _ self)
   = Raised (mkExc ValueError "Division by zero is not allowed.")
   <-> divisor_is_zero = true).
Proof.
  destruct self as [cls a b]. cbv zeta.
  unfold CalculationFactory.execute, BasicOperation.division. simpl.
  split; [|split; [|split]].
  - destruct cls; simpl; try discriminate. intros ->. reflexivity.
  - destruct cls; simpl; eauto. intros ->. eauto.
  - destruct cls; try discriminate. intros _ ->. reflexivity.
  - destruct (fis_zero fl b); split; trivial; discriminate.
Qed.

Lemma execute_failures_witness :
  CalculationFactory.execute Fixtures.integers
    (CalculationFactory.mkInstance _ Z CalculationFactory.DivideCalculation 7%Z 0%Z)
  = Raised (mkExc ZeroDivisionError "Cannot divide by zero.") /\
  CalculationFactory.execute Fixtures.integers
    (CalculationFactory.mkInstance _ Z CalculationFactory.DivideCalculation 8%Z 2%Z)
  = Ok 4%Z.
Proof.
  split.
  - apply (proj1 (execute_failures Fixtures.integers
                    (CalculationFactory.mkInstance _ Z
                       CalculationFactory.DivideCalculation 7%Z 0%Z))).
    reflexivity.
  - apply (proj1 (proj2 (proj2 (execute_failures Fixtures.integers
                    (CalculationFactory.mkInstance _ Z
                       CalculationFactory.DivideCalculation 8%Z 2%Z)))));
      reflexivity.
Defined.

(** ** Two more of the theorems above at concrete inputs *)

Lemma undo_redo_nothing_to_do_witness :
  snd (Calculator.undo Fixtures.s0) = Fixtures.s0 /\
  snd (Calculator.redo Fixtures.s1) = Fixtures.s1.
Proof.
  split.
  - apply (proj1 (proj2 (undo_redo_nothing_to_do Fixtures.s0))). reflexivity.
  - apply (proj2 (proj2 (proj2 (undo_redo_nothing_to_do Fixtures.s1)))).
    reflexivity.
Defined.

Lemma new_calculator_witness :
  Calculator.history
    (Calculator.__init__ Fixtures.runtime (mkConfig 10 true)
       (mkWorld (Some [[("operation", "Addition")]]) None Fixtures.noon)) = [].
Proof.
  apply (proj2 (proj2 (proj2 (proj2 (proj2 (proj2
           (new_calculator Fixtures.runtime (mkConfig 10 true)
              (mkWorld (Some [[("operation", "Addition")]]) None Fixtures.noon)
              (RawStr "1") (RawStr "2")))))))).
  right. right. discriminate.
Defined.
